(** * HalalLens: the fetch, classify and persist pipeline

    A shallow embedding of the BSE/NSE crawler, the financial announcement
    processor, the PDF store and the PostgreSQL persistence layer of
    HalalLens, with the properties stated on them. *)

From stdpp Require Import base gmap strings list.
From Stdlib Require Import ZArith Ascii String QArith Lqa.

Close Scope Q_scope.
Open Scope string_scope.

(* ===================================================================== *)
(** ** Text helpers (Python [str] methods on ASCII text) *)
(* ===================================================================== *)

Module Text.

Definition chars (s : string) : list ascii := list_ascii_of_string s.
Definition of_chars (l : list ascii) : string := string_of_list_ascii l.

(** [str.lower] on ASCII letters. *)
Definition lower_char (c : ascii) : ascii :=
  let n := nat_of_ascii c in
  if (65 <=? n)%nat && (n <=? 90)%nat then ascii_of_nat (n + 32) else c.

Definition lower (s : string) : string := of_chars (map lower_char (chars s)).

(** Characters removed by [str.strip()]: the ASCII characters for which
    [str.isspace()] holds, tab to carriage return, the separators
    [\x1c]..[\x1f] and the space. *)
Definition is_space (c : ascii) : bool :=
  let n := nat_of_ascii c in
  (n =? 32)%nat || ((9 <=? n)%nat && (n <=? 13)%nat) || ((28 <=? n)%nat && (n <=? 31)%nat).

Fixpoint lstrip_chars (l : list ascii) : list ascii :=
  match l with
  | c :: t => if is_space c then lstrip_chars t else l
  | [] => []
  end.

Definition strip (s : string) : string :=
  of_chars (rev (lstrip_chars (rev (lstrip_chars (chars s))))).

Fixpoint prefixb (p l : list ascii) : bool :=
  match p, l with
  | [], _ => true
  | c :: p', d :: l' => Ascii.eqb c d && prefixb p' l'
  | _ :: _, [] => false
  end.

(** [s.startswith(p)] *)
Definition startswith (s p : string) : bool := prefixb (chars p) (chars s).

(** [p in s] for strings. *)
Fixpoint contains_chars (p l : list ascii) : bool :=
  prefixb p l || match l with [] => false | _ :: t => contains_chars p t end.

Definition contains (p s : string) : bool := contains_chars (chars p) (chars s).

(** [s[i:j]] for 0 <= i <= j. *)
Definition slice (s : string) (i j : nat) : string :=
  of_chars (firstn (j - i) (skipn i (chars s))).

(** [s.replace(old, new)] with a one-character [old]. *)
Definition replace_char (c : ascii) (new : string) (s : string) : string :=
  of_chars (flat_map (fun d => if Ascii.eqb c d then chars new else [d]) (chars s)).

(** Python truthiness of an optional string value. *)
Definition truthy (o : option string) : bool :=
  match o with Some s => negb (String.eqb s "") | None => false end.

(** [d.get(k, default)] for a string field. *)
Definition get_or (o : option string) (default : string) : string :=
  match o with Some s => s | None => default end.

(** [d.get(k1) or d.get(k2)]. *)
Definition or_else (a b : option string) : option string :=
  if truthy a then a else b.

End Text.

(* ===================================================================== *)
(** ** The fragment of Python's [re] used by the extractor *)
(* ===================================================================== *)

Module Re.
Import Text.

(** Regular expressions of the patterns in [financial_data_processor.py]:
    single characters (a class), concatenation, the lazy star [c*?] of a
    class, one capturing group, and the empty pattern. *)
Inductive rx : Type :=
  | RChr (p : ascii -> bool)
  | RSeq (r1 r2 : rx)
  | RLazy (p : ascii -> bool)
  | RGrp (r : rx)
  | REps.

(** Result of a match: [Some g] with [g] the text of group 1 (if the
    pattern has one). *)
Definition mres := option (option (list ascii)).

(** Backtracking matcher in continuation-passing style, as [sre] explores
    alternatives: the lazy star tries the shortest repetition first. *)
Fixpoint mtch (r : rx) (s : list ascii) (cap : option (list ascii))
    (k : list ascii -> option (list ascii) -> mres) {struct r} : mres :=
  match r with
  | REps => k s cap
  | RChr p => match s with c :: t => if p c then k t cap else None | [] => None end
  | RSeq r1 r2 => mtch r1 s cap (fun s' cap' => mtch r2 s' cap' k)
  | RLazy p =>
      (fix go (s : list ascii) : mres :=
         match k s cap with
         | Some x => Some x
         | None => match s with c :: t => if p c then go t else None | [] => None end
         end) s
  | RGrp r1 => mtch r1 s cap (fun s' _ => k s' (Some (firstn (List.length s - List.length s') s)))
  end.

(** [re.search]: the leftmost position where the pattern matches. *)
Fixpoint search_chars (r : rx) (s : list ascii) : mres :=
  match mtch r s None (fun _ c => Some c) with
  | Some x => Some x
  | None => match s with [] => None | _ :: t => search_chars r t end
  end.

Definition search (r : rx) (s : string) : mres := search_chars r (chars s).

(** [match.group(1)] of a successful search. *)
Definition group1 (m : option (list ascii)) : option string := option_map of_chars m.

(** Literal text under [re.IGNORECASE]. *)
Definition lit_char (c : ascii) : rx := RChr (fun d => Ascii.eqb (lower_char c) (lower_char d)).

Fixpoint lit_chars (l : list ascii) : rx :=
  match l with [] => REps | c :: t => RSeq (lit_char c) (lit_chars t) end.

Definition lit (s : string) : rx := lit_chars (chars s).

Definition is_digit (c : ascii) : bool :=
  let n := nat_of_ascii c in (48 <=? n)%nat && (n <=? 57)%nat.

(** [\d] *)
Definition digit : rx := RChr is_digit.
(** [[1-4]] *)
Definition digit14 : rx := RChr (fun c => let n := nat_of_ascii c in (49 <=? n)%nat && (n <=? 52)%nat).
(** [.*?]: [.] matches anything but a newline. *)
Definition any_lazy : rx := RLazy (fun c => negb (Ascii.eqb c "010"%char)).

Fixpoint rep (n : nat) (r : rx) : rx :=
  match n with O => REps | S m => RSeq r (rep m r) end.

Definition seqs (l : list rx) : rx := fold_right RSeq REps l.

(** [\d{2}\.\d{2}\.\d{4}] *)
Definition dmy : rx := seqs [rep 2 digit; lit "."; rep 2 digit; lit "."; rep 4 digit].

End Re.

(** The strings a pattern matches and the group a match leaves, used to
    state what the extractors can return. *)
Module ReLang.
Import Re.

Fixpoint in_lang (r : rx) (w : list ascii) : Prop :=
  match r with
  | REps => w = []
  | RChr p => exists c, w = [c] /\ p c = true
  | RSeq r1 r2 => exists w1 w2 : list ascii, w = (w1 ++ w2)%list /\ in_lang r1 w1 /\ in_lang r2 w2
  | RLazy p => Forall (fun c => p c = true) w
  | RGrp r1 => in_lang r1 w
  end.

(** [cap_rel r cap cap']: matching [r] turns the group [cap] into [cap']. *)
Fixpoint cap_rel (r : rx) (cap cap' : option (list ascii)) : Prop :=
  match r with
  | RSeq r1 r2 => exists c1, cap_rel r1 cap c1 /\ cap_rel r2 c1 cap'
  | RGrp r1 => exists g, cap' = Some g /\ in_lang r1 g
  | _ => cap' = cap
  end.

End ReLang.

(* ===================================================================== *)
(** ** Classifier and extractor ([financial_data_processor.py]) *)
(* ===================================================================== *)

Module Classifier.
Import Text Re.

Definition high_confidence : list string :=
  ["result"; "financial results"; "quarterly results"; "annual results"].
Definition medium_confidence : list string :=
  ["unaudited"; "audited"; "standalone"; "consolidated"].
Definition board_keywords : list string :=
  ["approve"; "consideration"; "quarter ended"; "year ended"].

(** [any(keyword in subject for keyword in kws)] *)
Definition any_in (kws : list string) (subject : string) : bool :=
  existsb (fun kw => contains kw subject) kws.

(** [_is_financial_announcement] *)
Definition is_financial_announcement (category subject : string) : bool :=
  if existsb (String.eqb category) ["Result"; "Results"] then true
  else if String.eqb category "Board Meeting" then any_in board_keywords subject
  else any_in high_confidence subject.

(** [_determine_confidence] *)
Definition determine_confidence (category subject : string) : string :=
  if String.eqb category "Result" then "HIGH"
  else if String.eqb category "Board Meeting" && any_in board_keywords subject then "MEDIUM"
  else "LOW".

(** [_extract_period]: the first pattern that matches wins. *)
Definition period_patterns : list rx :=
  [ seqs [lit "quarter ended "; RGrp dmy];
    seqs [lit "year ended "; RGrp dmy];
    seqs [lit "period ended "; RGrp dmy];
    seqs [lit "q"; digit14; any_lazy; RGrp (rep 4 digit)];
    seqs [lit "fy"; any_lazy; RGrp (rep 4 digit)] ].

Fixpoint first_group (pats : list rx) (text : string) : option string :=
  match pats with
  | [] => None
  | p :: ps => match search p text with
               | Some g => group1 g
               | None => first_group ps text
               end
  end.

Definition extract_period (text : string) : option string := first_group period_patterns text.

(** [_extract_result_type] *)
Definition extract_result_type (text : string) : option string :=
  if contains "consolidated" text then Some "consolidated"
  else if contains "standalone" text then Some "standalone"
  else None.

(** [_extract_financial_year] *)
Definition extract_financial_year (text : string) : option string :=
  match search (seqs [lit "fy"; any_lazy; RGrp (rep 4 digit)]) text with
  | Some g => group1 g
  | None => None
  end.

(** The six quarter patterns, in order, each with the label it yields. *)
Inductive quarter_pat := QNum (r : rx) | QWord (r : rx) (label : string).

Definition quarter_patterns : list quarter_pat :=
  [ QNum (seqs [lit "q"; RGrp digit14]);
    QNum (seqs [lit "quarter"; any_lazy; RGrp digit14]);
    QWord (lit "first quarter") "Q1";
    QWord (lit "second quarter") "Q2";
    QWord (lit "third quarter") "Q3";
    QWord (lit "fourth quarter") "Q4" ].

Fixpoint extract_quarter_from (pats : list quarter_pat) (text : string) : option string :=
  match pats with
  | [] => None
  | QNum r :: ps =>
      match search r text with
      | Some g => Some ("Q" ++ get_or (group1 g) "")
      | None => extract_quarter_from ps text
      end
  | QWord r label :: ps =>
      match search r text with
      | Some _ => Some label
      | None => extract_quarter_from ps text
      end
  end.

(** [_extract_quarter] *)
Definition extract_quarter (text : string) : option string :=
  extract_quarter_from quarter_patterns text.

(** [_extract_audit_status] *)
Definition extract_audit_status (text : string) : option string :=
  if contains "unaudited" text then Some "unaudited"
  else if contains "audited" text then Some "audited"
  else None.

Record extracted_info := mk_info {
  period : option string;
  result_type : option string;
  financial_year : option string;
  quarter : option string;
  audit_status : option string }.

(** The dictionary built over the lowered [full_text], returned only when
    some value is truthy. *)
Definition extract_from_text (full_text : string) : option extracted_info :=
  let info := mk_info (extract_period full_text) (extract_result_type full_text)
                (extract_financial_year full_text) (extract_quarter full_text)
                (extract_audit_status full_text) in
  if truthy (period info) || truthy (result_type info) || truthy (financial_year info)
     || truthy (quarter info) || truthy (audit_status info)
  then Some info else None.

End Classifier.

(* ===================================================================== *)
(** ** Python [datetime] values and the parsers used on filing dates *)
(* ===================================================================== *)

Module DateTime.
Import Text.
Local Open Scope Z_scope.

Record datetime := mkdt {
  dt_year : Z; dt_month : Z; dt_day : Z;
  dt_hour : Z; dt_minute : Z; dt_second : Z; dt_micro : Z }.

#[global] Instance datetime_eq_dec : EqDecision datetime.
Proof. solve_decision. Defined.

#[global] Instance datetime_countable : Countable datetime.
Proof.
  apply (inj_countable'
    (fun d => [dt_year d; dt_month d; dt_day d; dt_hour d; dt_minute d; dt_second d; dt_micro d])
    (fun l => match l with
              | [y; mo; d; h; mi; s; us] => mkdt y mo d h mi s us
              | _ => mkdt 0 0 0 0 0 0 0
              end)).
  by intros [].
Defined.

Definition is_leap (y : Z) : bool :=
  (Z.eqb (y mod 4) 0 && negb (Z.eqb (y mod 100) 0)) || Z.eqb (y mod 400) 0.

Definition days_in_month (y m : Z) : Z :=
  if Z.eqb m 2 then (if is_leap y then 29 else 28)
  else if existsb (Z.eqb m) [4; 6; 9; 11] then 30 else 31.

(** The range checks of the [datetime] constructor. *)
Definition valid_fields (y mo d h mi s us : Z) : bool :=
  (1 <=? y) && (y <=? 9999) && (1 <=? mo) && (mo <=? 12)
  && (1 <=? d) && (d <=? days_in_month y mo)
  && (0 <=? h) && (h <? 24) && (0 <=? mi) && (mi <? 60) && (0 <=? s) && (s <? 60)
  && (0 <=? us) && (us <? 1000000).

Definition make (y mo d h mi s us : Z) : option datetime :=
  if valid_fields y mo d h mi s us then Some (mkdt y mo d h mi s us) else None.

Definition digit_val (c : ascii) : option Z :=
  if Re.is_digit c then Some (Z.of_nat (nat_of_ascii c) - 48) else None.

(** Exactly [n] decimal digits, with their value and the rest. *)
Fixpoint digits_acc (n : nat) (acc : Z) (l : list ascii) : option (Z * list ascii) :=
  match n with
  | O => Some (acc, l)
  | S m => match l with
           | c :: t => v ← digit_val c; digits_acc m (10 * acc + v) t
           | [] => None
           end
  end.

Definition digits (n : nat) (l : list ascii) : option (Z * list ascii) := digits_acc n 0 l.

Definition expect (c : ascii) (l : list ascii) : option (list ascii) :=
  match l with d :: t => if Ascii.eqb c d then Some t else None | [] => None end.

(** The C string the parser walks: the byte at index [i], and the
    terminating NUL at and past the end. *)
Definition nul : ascii := ascii_of_nat 0.

Definition at_ (l : list ascii) (i : Z) : ascii :=
  if i <? 0 then nul else nth (Z.to_nat i) l nul.

(** [parse_digits(ptr, var, n)]: [n] digits accumulated into [acc]; the
    value and the pointer after them, or [NULL] ([None]). *)
Fixpoint parse_digits (l : list ascii) (p : Z) (n : nat) (acc : Z) : option (Z * Z) :=
  match n with
  | O => Some (acc, p)
  | S m =>
      let c := at_ l p in
      if Re.is_digit c then parse_digits l (p + 1) m (10 * acc + (Z.of_nat (nat_of_ascii c) - 48))
      else None
  end.

(** The digit run of [YYYYWww...] from [idx] up to [len]. *)
Fixpoint digit_run_end (fuel : nat) (l : list ascii) (idx len : Z) : Z :=
  match fuel with
  | O => idx
  | S f => if (idx <? len) && Re.is_digit (at_ l idx) then digit_run_end f l (idx + 1) len else idx
  end.

(** [_find_isoformat_datetime_separator] *)
Definition find_isoformat_datetime_separator (l : list ascii) (len : Z) : Z :=
  if len =? 7 then 7
  else if Ascii.eqb (at_ l 4) "-" then
    if Ascii.eqb (at_ l 5) "W" then
      if len <? 8 then -1
      else if (8 <? len) && Ascii.eqb (at_ l 8) "-" then
        if len =? 9 then -1
        else if (10 <? len) && Re.is_digit (at_ l 10) then 8
        else 10
      else 8
    else 10
  else if Ascii.eqb (at_ l 4) "W" then
    let idx := digit_run_end (Z.to_nat len) l 7 len in
    if idx <? 9 then idx
    else if Z.even idx then 7 else 8
  else 8.

(** The tables of the C module: [_days_before_month] and
    [_days_in_month], 1-based, 0 at index 0. *)
Definition days_before_month_tbl (m : Z) : Z :=
  nth (Z.to_nat m) [0; 0; 31; 59; 90; 120; 151; 181; 212; 243; 273; 304; 334] 0.

Definition days_in_month_tbl (m : Z) : Z :=
  nth (Z.to_nat m) [0; 31; 28; 31; 30; 31; 30; 31; 31; 30; 31; 30; 31] 0.

Definition c_days_in_month (y m : Z) : Z :=
  if (m =? 2) && is_leap y then 29 else days_in_month_tbl m.

Definition days_before_year (y : Z) : Z :=
  let y := y - 1 in y * 365 + Z.quot y 4 - Z.quot y 100 + Z.quot y 400.

Definition days_before_month (y m : Z) : Z :=
  days_before_month_tbl m + (if (2 <? m) && is_leap y then 1 else 0).

Definition ymd_to_ord (y m d : Z) : Z := days_before_year y + days_before_month y m + d.

Definition DI400Y : Z := 146097.
Definition DI100Y : Z := 36524.
Definition DI4Y : Z := 1461.

Definition ord_to_ymd (ordinal : Z) : Z * Z * Z :=
  let o := ordinal - 1 in
  let n400 := Z.quot o DI400Y in let n := Z.rem o DI400Y in
  let n100 := Z.quot n DI100Y in let n := Z.rem n DI100Y in
  let n4 := Z.quot n DI4Y in let n := Z.rem n DI4Y in
  let n1 := Z.quot n 365 in let n := Z.rem n 365 in
  let year := n400 * 400 + 1 + n100 * 100 + n4 * 4 + n1 in
  if (n1 =? 4) || (n100 =? 4) then (year - 1, 12, 31)
  else
    let leapyear := (n1 =? 3) && (negb (n4 =? 24) || (n100 =? 3)) in
    let month := Z.shiftr (n + 50) 5 in
    let preceding := days_before_month_tbl month + (if (2 <? month) && leapyear then 1 else 0) in
    let '(month, preceding) :=
      if n <? preceding then (month - 1, preceding - c_days_in_month year (month - 1))
      else (month, preceding) in
    (year, month, n - preceding + 1).

Definition iso_week1_monday (year : Z) : Z :=
  let first_day := ymd_to_ord year 1 1 in
  let first_weekday := Z.rem (first_day + 6) 7 in
  let week1_monday := first_day - first_weekday in
  if 3 <? first_weekday then week1_monday + 7 else week1_monday.

(** [iso_to_ymd] *)
Definition iso_to_ymd (iso_year iso_week iso_day : Z) : option (Z * Z * Z) :=
  let week_ok :=
    if (iso_week <=? 0) || (53 <=? iso_week) then
      (iso_week =? 53) &&
      (let first_weekday := Z.rem (ymd_to_ord iso_year 1 1 + 6) 7 in
       (first_weekday =? 3) || ((first_weekday =? 2) && is_leap iso_year))
    else true in
  if negb week_ok then None
  else if (iso_day <=? 0) || (8 <=? iso_day) then None
  else Some (ord_to_ymd (iso_week1_monday iso_year + (iso_week - 1) * 7 + iso_day - 1)).

(** [*(p++) == '-'] after a separator-using date part. *)
Definition dash (l : list ascii) (uses_sep : bool) (p : Z) : option Z :=
  if uses_sep then (if Ascii.eqb (at_ l p) "-" then Some (p + 1) else None) else Some p.

(** [parse_isoformat_date(dtstr, len)]; [len] is the separator location,
    [-1] read as [SIZE_MAX]. *)
Definition parse_isoformat_date (l : list ascii) (len : Z) : option (Z * Z * Z) :=
  '(year, p) ← parse_digits l 0 4 0;
  let uses_sep := Ascii.eqb (at_ l p) "-" in
  let p := if uses_sep then p + 1 else p in
  if Ascii.eqb (at_ l p) "W" then
    '(week, p) ← parse_digits l (p + 1) 2 0;
    '(day, _) ← (if (len <? 0) || (p <? len) then
                   p ← dash l uses_sep p; parse_digits l p 1 0
                 else Some (1, p));
    iso_to_ymd year week day
  else
    '(month, p) ← parse_digits l p 2 0;
    p ← dash l uses_sep p;
    '(day, _) ← parse_digits l p 2 0;
    Some (year, month, day).

(** The [for (i = 0; i < 3; ++i)] loop of [parse_hh_mm_ss_ff]: [inl] a
    return with its code, [inr] the pointer where the fraction starts. *)
Fixpoint hh_mm_ss_loop (l : list ascii) (p_end : Z) (n : nat) (first : bool) (has_sep : bool)
    (p : Z) (vals : list Z) : option ((Z * list Z) + (Z * list Z)) :=
  match n with
  | O => Some (inr (p, vals))
  | S n' =>
      '(v, p) ← parse_digits l p 2 0;
      let c := at_ l p in
      let p := p + 1 in
      let has_sep := if first then Ascii.eqb c ":" else has_sep in
      let vals := (vals ++ [v])%list in
      if p_end <=? p then Some (inl (if Ascii.eqb c nul then 0 else 1, vals))
      else if has_sep && Ascii.eqb c ":" then hh_mm_ss_loop l p_end n' false has_sep p vals
      else if Ascii.eqb c "." || Ascii.eqb c "," then Some (inr (p, vals))
      else if negb has_sep then hh_mm_ss_loop l p_end n' false has_sep (p - 1) vals
      else None
  end.

Fixpoint skip_digits (fuel : nat) (l : list ascii) (p : Z) : Z :=
  match fuel with
  | O => p
  | S f => if Re.is_digit (at_ l p) then skip_digits f l (p + 1) else p
  end.

(** [parse_hh_mm_ss_ff(tstr, tstr_end)]: the return code (0 at the end of
    the string, 1 otherwise) and [(hour, minute, second, microsecond)];
    [None] a negative code. *)
Definition parse_hh_mm_ss_ff (l : list ascii) (p p_end : Z) : option (Z * (Z * Z * Z * Z)) :=
  r ← hh_mm_ss_loop l p_end 3 true true p [];
  let fields vals us := (nth 0 vals 0, nth 1 vals 0, nth 2 vals 0, us) in
  match r with
  | inl (code, vals) => Some (code, fields vals 0)
  | inr (p, vals) =>
      let len_remains := p_end - p in
      let to_parse := if 6 <=? len_remains then 6 else len_remains in
      '(us, p) ← parse_digits l p (Z.to_nat to_parse) 0;
      let us := if to_parse <? 6 then us * 10 ^ (6 - to_parse) else us in
      let p := skip_digits (List.length l) l p in
      Some (if Ascii.eqb (at_ l p) nul then 0 else 1, fields vals us)
  end.

(** The [do { ... } while (++tzinfo_pos < p_end)] search for [Z], [+], [-]. *)
Fixpoint find_tzinfo (fuel : nat) (l : list ascii) (pos p_end : Z) : Z :=
  match fuel with
  | O => pos
  | S f =>
      let c := at_ l pos in
      if Ascii.eqb c "Z" || Ascii.eqb c "+" || Ascii.eqb c "-" then pos
      else if pos + 1 <? p_end then find_tzinfo f l (pos + 1) p_end else pos + 1
  end.

(** [parse_isoformat_time(dtstr, dtlen)]: the time fields and the UTC
    offset, [None] for no offset; [(seconds, microseconds)] otherwise. *)
Definition parse_isoformat_time (l : list ascii) (p dtlen : Z)
    : option ((Z * Z * Z * Z) * option (Z * Z)) :=
  let p_end := p + dtlen in
  let tzpos := find_tzinfo (List.length l) l p p_end in
  '(rv, hms) ← parse_hh_mm_ss_ff l p tzpos;
  if tzpos =? p_end then (if rv =? 1 then None else Some (hms, None))
  else if Ascii.eqb (at_ l tzpos) "Z" then
    (if Ascii.eqb (at_ l (tzpos + 1)) nul then Some (hms, Some (0, 0)) else None)
  else
    let sign := if Ascii.eqb (at_ l tzpos) "-" then -1 else 1 in
    '(rv, tz) ← parse_hh_mm_ss_ff l (tzpos + 1) p_end;
    let '(th, tm, ts, tus) := tz in
    if rv =? 0 then Some (hms, Some (sign * (th * 3600 + tm * 60 + ts), sign * tus)) else None.

(** [tzinfo_from_isoformat_results]: [timezone(timedelta(seconds=..,
    microseconds=..))] requires an offset strictly inside 24 hours; a zero
    second count is UTC. *)
Definition tz_ok (tz : option (Z * Z)) : bool :=
  match tz with
  | None => true
  | Some (s, us) =>
      (s =? 0) || ((- 86400000000 <? s * 1000000 + us) && (s * 1000000 + us <? 86400000000))
  end.

(** [datetime.fromisoformat] (CPython 3.11, [_datetimemodule.c]): the
    date up to the separator, any one character as separator, the time,
    the offset; [None] is the [ValueError]. The offset does not change the
    local fields that [strftime] prints. *)
Definition fromisoformat_chars (l : list ascii) : option datetime :=
  let len := Z.of_nat (List.length l) in
  let sep := find_isoformat_datetime_separator l len in
  '(y, mo, d) ← parse_isoformat_date l sep;
  '(hms, tz) ← (if sep <? len then parse_isoformat_time l (sep + 1) (len - sep - 1)
                else Some ((0, 0, 0, 0), None));
  let '(h, mi, s, us) := hms in
  if tz_ok tz then make y mo d h mi s us else None.

Definition fromisoformat (s : string) : option datetime := fromisoformat_chars (chars s).

(** The leading match of [(\d{4}-\d{2}-\d{2}T\d{2}:\d{2}:\d{2})]. *)
Definition iso_base (l : list ascii) : option (Z * Z * Z * Z * Z * Z * list ascii) :=
  '(y, l) ← digits 4 l; l ← expect "-" l; '(mo, l) ← digits 2 l; l ← expect "-" l;
  '(d, l) ← digits 2 l; l ← expect "T" l; '(h, l) ← digits 2 l; l ← expect ":" l;
  '(mi, l) ← digits 2 l; l ← expect ":" l; '(s, l) ← digits 2 l;
  Some (y, mo, d, h, mi, s, l).

Fixpoint digit_run (l : list ascii) : list ascii :=
  match l with c :: t => if Re.is_digit c then c :: digit_run t else [] | [] => [] end.

Section Parse.

(** The [datetime.strptime(dt_str, '%Y-%m-%dT%H:%M:%S')] fallback, taken
    when the leading regular expression does not match. *)
Variable strptime_fallback : string -> option datetime.

(** [BSEDatabaseManager.parse_iso_datetime]: the fraction is padded or
    truncated to six digits, trailing text after it is dropped, and the
    normalised text goes through [fromisoformat] (range checks); [None] is
    a raised exception. *)
Definition parse_iso_datetime (s : string) : option datetime :=
  match iso_base (chars s) with
  | None => strptime_fallback s
  | Some (y, mo, d, h, mi, sec, rest) =>
      let us := match rest with
                | "."%char :: t =>
                    match digit_run t with
                    | [] => 0
                    | ds => match digits 6 (firstn 6 (ds ++ chars "000000")) with
                            | Some (v, _) => v
                            | None => 0
                            end
                    end
                | _ => 0
                end in
      make y mo d h mi sec us
  end.

End Parse.

(** Zero-padded decimal of [strftime] ([%Y], [%m], ...). *)
Fixpoint pad_digits (w : nat) (z : Z) : list ascii :=
  match w with
  | O => []
  | S w' => pad_digits w' (z / 10) ++ [ascii_of_nat (Z.to_nat (z mod 10) + 48)]
  end.

Definition pad (w : nat) (z : Z) : string := of_chars (pad_digits w z).

End DateTime.

(* ===================================================================== *)
(** ** Results with exceptions *)
(* ===================================================================== *)

(** The exceptions the modelled code can raise. *)
Inductive exn : Type :=
  | ValueError        (* a filing date that does not parse *)
  | AttributeError    (* an attribute looked up on [None] *)
  | DatabaseError.    (* a statement rejected by PostgreSQL *)

Inductive res (A : Type) : Type :=
  | Ok (a : A)
  | Raise (e : exn).
Arguments Ok {A} a.
Arguments Raise {A} e.

#[global] Instance res_ret : MRet res := fun _ a => Ok a.
#[global] Instance res_bind : MBind res :=
  fun _ _ f m => match m with Ok a => f a | Raise e => Raise e end.

Definition of_option {A} (e : exn) (o : option A) : res A :=
  match o with Some a => Ok a | None => Raise e end.

(* ===================================================================== *)
(** ** Persistence ([database/database_manager.py]) *)
(* ===================================================================== *)

Module Db.
Import Text DateTime.

(** A BSE announcement dictionary: the keys the code reads ([None] for a
    missing key). *)
Record announcement := mk_ann {
  SCRIP_CD : option string;
  NEWS_DT : option string;
  DT_TM : option string;
  NEWSID : option string;
  CATEGORYNAME : option string;
  SLONGNAME : option string;
  NEWSSUB : option string;
  MORE : option string;
  ATTACHMENTNAME : option string;
  ann_minio_path : option string;
  ann_pdf_stored : option bool }.

(** The primary key [(symbol, filing_date)] of both tables. *)
Abbreviation key := (string * datetime)%type.

(** The non-key columns of [announcements]. *)
Record ann_row := mk_row {
  company_name : string;
  category : string;
  headline : string;
  confidence : string;
  raw_json : announcement;
  minio_path : option string;
  pdf_stored : bool }.

(** The parameter dictionary built by [_prepare_announcement_data]. *)
Record ann_params := mk_params {
  p_symbol : string;
  p_filing_date : datetime;
  p_row : ann_row }.

Section Announcements.

Variable strptime_fallback : string -> option datetime.

(** [_prepare_announcement_data]: [Ok None] is the skipped record (the
    function returns [None]), [Raise] an unparsable date. *)
Definition prepare_announcement_data (a : announcement) : res (option ann_params) :=
  let symbol := strip (get_or (SCRIP_CD a) "") in
  let filing_date := or_else (NEWS_DT a) (DT_TM a) in
  if String.eqb symbol "" || negb (truthy filing_date) then Ok None
  else
    fd ← of_option ValueError (parse_iso_datetime strptime_fallback (get_or filing_date ""));
    let conf := if String.eqb (get_or (CATEGORYNAME a) "") "Result" then "HIGH"
                else if String.eqb (get_or (CATEGORYNAME a) "") "Board Meeting" then "MEDIUM"
                else "LOW" in
    Ok (Some (mk_params symbol fd
      (mk_row (strip (get_or (SLONGNAME a) "")) (strip (get_or (CATEGORYNAME a) ""))
              (slice (get_or (NEWSSUB a) "") 0 600) conf a
              (ann_minio_path a) (default false (ann_pdf_stored a))))).

(** [cursor.execute(insert_query, insert_data)] with the
    [INSERT ... ON CONFLICT (symbol, filing_date) DO UPDATE SET] of every
    non-key column. With [insert_data = None] psycopg2 sends the query
    without substituting the [%(name)s] placeholders and the server
    rejects it. *)
Definition execute_upsert (d : option ann_params) (tbl : gmap key ann_row)
    : res (gmap key ann_row) :=
  match d with
  | Some p => Ok (<[(p_symbol p, p_filing_date p) := p_row p]> tbl)
  | None => Raise DatabaseError
  end.

(** The [for announcement in announcements_data] loop, counting
    [processed_count]. *)
Fixpoint announcements_loop (batch : list announcement) (tbl : gmap key ann_row) (n : nat)
    : res (nat * gmap key ann_row) :=
  match batch with
  | [] => Ok (n, tbl)
  | a :: rest =>
      d ← prepare_announcement_data a;
      tbl' ← execute_upsert d tbl;
      announcements_loop rest tbl' (S n)
  end.

(** [insert_announcements]: the committed table and the result; an
    exception rolls the transaction back and is re-raised. The
    [self.stats] counters only feed logging and are left out. *)
Definition insert_announcements (batch : list announcement) (tbl : gmap key ann_row)
    : res nat * gmap key ann_row :=
  match batch with
  | [] => (Ok 0, tbl)
  | _ => match announcements_loop batch tbl 0 with
         | Ok (n, tbl') => (Ok n, tbl')
         | Raise e => (Raise e, tbl)
         end
  end.

End Announcements.

(** A value that is either a [datetime] or a string (the ['date'] of a
    processed record is a [datetime], a snapshot read back from JSON has
    a string). *)
Inductive date_value := VDate (d : datetime) | VStr (s : string).

Definition truthy_date (o : option date_value) : bool :=
  match o with Some (VDate _) => true | Some (VStr s) => negb (String.eqb s "") | None => false end.

(** The ['extracted_data'] dictionary of a snapshot. *)
Record snap_extracted := mk_extracted {
  x_period : option string;
  x_quarter : option string;
  x_audit_status : option string;
  x_total_debt : option Z;
  x_cash_equiv : option Z;
  x_revenue : option Z;
  x_interest_income : option Z;
  x_dividend_income : option Z }.

Definition no_extracted : snap_extracted :=
  mk_extracted None None None None None None None None.

Record snapshot := mk_snap {
  snap_symbol : option string;
  snap_date : option date_value;
  snap_filing_date : option date_value;
  extracted_data : option snap_extracted }.

(** A calendar date [(year, month, day)]. *)
Abbreviation cal_date := (Z * Z * Z)%type.

(** The non-key columns of [financial_snapshots]; [parsed_at] is [None]
    where the column keeps its default (on insert). *)
Record snap_row := mk_srow {
  fy_end : option cal_date;
  s_quarter : option string;
  s_audit_status : option string;
  total_debt : option Z;
  cash_equiv : option Z;
  revenue : option Z;
  interest_income : option Z;
  dividend_income : option Z;
  parsed_at : option Z }.

Record snap_params := mk_sparams {
  sp_symbol : string;
  sp_filing_date : option datetime;
  sp_fy_end : option cal_date;
  sp_extracted : snap_extracted }.

Section Snapshots.

Variable strptime_fallback : string -> option datetime.
(** [datetime.strptime(period_str, '%d.%m.%Y').date()] *)
Variable strptime_dmy : string -> option cal_date.
(** The server clock read by [now()]. *)
Variable db_now : Z.

(** [_parse_fy_end] *)
Definition parse_fy_end (period_str : option string) : option cal_date :=
  if negb (truthy period_str) then None
  else if contains "." (get_or period_str "") then strptime_dmy (get_or period_str "")
  else None.

(** [_prepare_snapshot_data] *)
Definition prepare_snapshot_data (s : snapshot) : res snap_params :=
  let fdv := if truthy_date (snap_date s) then snap_date s else snap_filing_date s in
  fd ← match fdv with
       | Some (VStr str) => d ← of_option ValueError (parse_iso_datetime strptime_fallback str);
                            Ok (Some d)
       | Some (VDate d) => Ok (Some d)
       | None => Ok None
       end;
  let x := default no_extracted (extracted_data s) in
  Ok (mk_sparams (get_or (snap_symbol s) "") fd (parse_fy_end (x_period x)) x).

(** [SELECT 1 FROM announcements WHERE symbol = .. AND filing_date = ..]
    finds a row ([filing_date = NULL] matches nothing). *)
Definition parent_exists (anns : gmap key ann_row) (p : snap_params) : bool :=
  match sp_filing_date p with
  | Some d => bool_decide (is_Some (anns !! (sp_symbol p, d)))
  | None => false
  end.

Definition snap_row_of (p : snap_params) (stamp : option Z) : snap_row :=
  let x := sp_extracted p in
  mk_srow (sp_fy_end p) (x_quarter x) (x_audit_status x) (x_total_debt x) (x_cash_equiv x)
          (x_revenue x) (x_interest_income x) (x_dividend_income x) stamp.

(** The snapshot [INSERT ... ON CONFLICT DO UPDATE ..., parsed_at = now()]. *)
Definition upsert_snapshot (k : key) (p : snap_params) (snaps : gmap key snap_row)
    : gmap key snap_row :=
  match snaps !! k with
  | Some _ => <[k := snap_row_of p (Some db_now)]> snaps
  | None => <[k := snap_row_of p None]> snaps
  end.

Fixpoint snapshots_loop (anns : gmap key ann_row) (batch : list snapshot)
    (snaps : gmap key snap_row) (n : nat) : res (nat * gmap key snap_row) :=
  match batch with
  | [] => Ok (n, snaps)
  | s :: rest =>
      p ← prepare_snapshot_data s;
      if parent_exists anns p then
        match sp_filing_date p with
        | Some d => snapshots_loop anns rest (upsert_snapshot (sp_symbol p, d) p snaps) (S n)
        | None => snapshots_loop anns rest snaps n
        end
      else snapshots_loop anns rest snaps n
  end.

(** [insert_financial_snapshots]: the announcements table is only read. *)
Definition insert_financial_snapshots (anns : gmap key ann_row) (batch : list snapshot)
    (snaps : gmap key snap_row) : res nat * gmap key snap_row :=
  match batch with
  | [] => (Ok 0, snaps)
  | _ => match snapshots_loop anns batch snaps 0 with
         | Ok (n, snaps') => (Ok n, snaps')
         | Raise e => (Raise e, snaps)
         end
  end.

End Snapshots.

End Db.

(* ===================================================================== *)
(** ** The PDF store ([etl/minio_client.py]) *)
(* ===================================================================== *)

Module Storage.
Import Text DateTime.
Local Open Scope Z_scope.

(** What one [session.get] yields: a response with its status and body
    bytes, or a raised [Timeout] or other request exception. *)
Inductive response := Resp (status : Z) (content : list ascii) | Timeout | ConnError.

(** The BSE web server, answering each URL. *)
Abbreviation net := (string -> response).

(** [self.stats['session_initialized']] and the objects of the bucket;
    the other counters only feed [get_statistics]. *)
Record store := mk_store {
  session_initialized : bool;
  objects : gset string }.

Definition bse_base_url : string := "https://www.bseindia.com".

(** [generate_pdf_path]; [now] is [datetime.now()] at the call. *)
Definition generate_pdf_path (now : datetime) (symbol filing_date confidence : string) : string :=
  let d := match fromisoformat (replace_char "Z" "+00:00" filing_date) with
           | Some d => d
           | None => now
           end in
  let year := pad 4 (dt_year d) in
  let month := pad 2 (dt_month d) in
  let folder := if String.eqb confidence "HIGH" then "financial-results/" ++ year ++ "/" ++ month
                else if String.eqb confidence "MEDIUM" then "board-meetings/" ++ year ++ "/" ++ month
                else "raw-downloads/" ++ year ++ "/" ++ month in
  let filename := symbol ++ "_" ++ year ++ month ++ pad 2 (dt_day d) ++ "_"
                  ++ pad 2 (dt_hour d) ++ pad 2 (dt_minute d) ++ pad 2 (dt_second d) ++ ".pdf" in
  folder ++ "/" ++ filename.

(** [_initialize_bse_session] *)
Definition initialize_bse_session (web : net) (st : store) : bool * store :=
  if session_initialized st then (true, st)
  else match web (bse_base_url ++ "/") with
       | Resp 200 _ =>
           match web (bse_base_url ++ "/corporates/ann.html") with
           | Resp _ _ => (true, mk_store true (objects st))
           | _ => (false, st)
           end
       | _ => (false, st)
       end.

(** The [for attempt in range(max_retries)] loop of
    [download_and_store_pdf]. [put_object] stores the object. *)
Fixpoint download_attempts (web : net) (pdf_url minio_path : string) (max_retries : nat)
    (attempts : list nat) (st : store) : option string * store :=
  match attempts with
  | [] => (None, st)
  | attempt :: rest =>
      let last := negb (attempt <? max_retries - 1)%nat in
      match web pdf_url with
      | Resp 200 content =>
          if negb (prefixb (chars "%PDF") content) && negb last
          then download_attempts web pdf_url minio_path max_retries rest st
          else (Some minio_path, mk_store (session_initialized st) ({[minio_path]} ∪ objects st))
      | Resp 403 _ =>
          if last then download_attempts web pdf_url minio_path max_retries rest st
          else download_attempts web pdf_url minio_path max_retries rest (mk_store false (objects st))
      | Resp 404 _ => (Some "PDF Moved", st)
      | _ => download_attempts web pdf_url minio_path max_retries rest st
      end
  end.

(** [download_and_store_pdf] *)
Definition download_and_store_pdf (web : net) (now : datetime) (pdf_url symbol filing_date : string)
    (confidence : string) (max_retries : nat) (st : store) : option string * store :=
  let (ok, st) := initialize_bse_session web st in
  if negb ok then (None, st)
  else
    let minio_path := generate_pdf_path now symbol filing_date confidence in
    if bool_decide (minio_path ∈ objects st) then (Some minio_path, st)
    else download_attempts web pdf_url minio_path max_retries (seq 0 max_retries) st.

End Storage.

(* ===================================================================== *)
(** ** The announcement processor ([etl/financial_data_processor.py]) *)
(* ===================================================================== *)

Module Processor.
Import Text DateTime Classifier Db Storage.

Definition bse_attachment_dir : string := "https://www.bseindia.com/xml-data/corpfiling".
Definition bse_attachment_live : string := bse_attachment_dir ++ "/AttachLive".
Definition bse_attachment_moved : string := bse_attachment_dir ++ "/AttachHis".

(** The [processed_data] dictionary; [pd_pdf_stored] and [pd_minio_path]
    are [None] where the key is never set. *)
Record processed := mk_processed {
  pd_symbol : string;
  pd_company : string;
  pd_category : string;
  pd_subject : string;
  pd_date : datetime;
  pd_attachment_name : string;
  pd_confidence : string;
  pd_extracted_data : option extracted_info;
  pd_pdf_url : option string;
  pd_processing_status : string;
  pd_pdf_stored : option bool;
  pd_minio_path : option (option string) }.

(** The shared state: the PDF store and the [announcements] table. *)
Record pstate := mk_pstate {
  st_store : store;
  st_anns : gmap key ann_row }.

Section Process.

Variable strptime_fallback : string -> option datetime.
Variable web : net.
Variable now : datetime.

(** [updated_pdf_status]: [UPDATE announcements SET minio_path, pdf_stored
    WHERE symbol AND filing_date]; no row is created. *)
Definition updated_pdf_status (symbol : string) (filing_date : datetime)
    (path : option string) (stored : bool) (tbl : gmap key ann_row) : gmap key ann_row :=
  alter (fun r => mk_row (company_name r) (category r) (headline r) (confidence r)
                         (raw_json r) path stored) (symbol, filing_date) tbl.

(** An announcement with only its [NEWSSUB] set. *)
Definition announcement_with_subject (subject : string) : announcement :=
  mk_ann None None None None None None (Some subject) None None None None.

(** [_extract_financial_info_from_text] *)
Definition extract_financial_info_from_text (a : announcement) : option extracted_info :=
  extract_from_text (lower (get_or (NEWSSUB a) "" ++ " " ++ get_or (MORE a) "")).

(** One iteration of the loop of [process_announcements]: [Ok None] for a
    non-financial announcement; the state reached is kept when an
    exception escapes. *)
Definition process_one (a : announcement) (st : pstate) : res (option processed) * pstate :=
  let category := strip (get_or (CATEGORYNAME a) "") in
  let subject := lower (get_or (NEWSSUB a) "") in
  let company := get_or (SLONGNAME a) "" in
  let symbol := get_or (SCRIP_CD a) "" in
  let date := get_or (NEWS_DT a) "" in
  let attachment := get_or (ATTACHMENTNAME a) "" in
  let year := slice date 0 4 in
  let month := slice date 5 7 in
  if is_financial_announcement category subject then
    match parse_iso_datetime strptime_fallback date with
    | None => (Raise ValueError, st)
    | Some dt =>
        let base := mk_processed symbol company category (get_or (NEWSSUB a) "") dt attachment
                      (determine_confidence category subject) None None "pending" None None in
        if String.eqb attachment "" then (Ok (Some base), st)
        else
          let pdf_url := bse_attachment_live ++ "/" ++ attachment in
          let (mp, store1) :=
            download_and_store_pdf web now pdf_url symbol date "HIGH" 3 (st_store st) in
          match mp with
          | None => (Raise AttributeError, mk_pstate store1 (st_anns st))
          | Some p =>
              let '(mp2, store2) :=
                if String.eqb (lower p) "pdf moved" then
                  let moved := bse_attachment_moved ++ "/" ++ year ++ "/" ++ month ++ "/" ++ attachment in
                  download_and_store_pdf web now moved symbol date "HIGH" 3 store1
                else (Some p, store1) in
              let stored := truthy mp2 in
              let tbl := updated_pdf_status symbol dt mp2 stored (st_anns st) in
              let ext := extract_financial_info_from_text a in
              let status := match ext with Some _ => "success" | None => "no_data_found" end in
              (Ok (Some (mk_processed symbol company category (get_or (NEWSSUB a) "") dt attachment
                          (determine_confidence category subject) ext (Some pdf_url) status
                          (Some stored) (Some mp2))),
               mk_pstate store2 tbl)
          end
    end
  else (Ok None, st).

(** [process_announcements]: the [finance_data] list. *)
Fixpoint process_announcements (anns : list announcement) (st : pstate)
    : res (list processed) * pstate :=
  match anns with
  | [] => (Ok [], st)
  | a :: rest =>
      match process_one a st with
      | (Raise e, st') => (Raise e, st')
      | (Ok o, st') =>
          match process_announcements rest st' with
          | (Ok l, st'') => (Ok (match o with Some p => p :: l | None => l end), st'')
          | (Raise e, st'') => (Raise e, st'')
          end
      end
  end.

End Process.

End Processor.

(* ===================================================================== *)
(** ** BSE date chunking ([crawler/bse_ann.py]) *)
(* ===================================================================== *)

Module BseChunk.
Local Open Scope Z_scope.

(** Days are [datetime] values at midnight, written as their proleptic
    Gregorian ordinal ([date.toordinal()]): [strptime(.., '%Y%m%d')] of a
    well-formed date gives an ordinal in [1 .. max_ordinal], [strftime]
    prints it back. *)
Definition max_ordinal : Z := 3652059.   (* date(9999, 12, 31).toordinal() *)

(** [d + timedelta(days=n)]: [OverflowError] ([None]) outside the range
    of [datetime]. *)
Definition add_days (d n : Z) : option Z :=
  if (1 <=? d + n) && (d + n <=? max_ordinal) then Some (d + n) else None.

(** The [while current_day <= end_date] loop. Every iteration with
    [max_days >= 1] moves [current_day] forward by at least one day, so
    [fuel] = the number of days of the range bounds the iterations. *)
Fixpoint chunk_loop (fuel : nat) (current_day end_date max_days : Z)
    : option (list (Z * Z)) :=
  match fuel with
  | O => Some []
  | S f =>
      if current_day <=? end_date then
        ce ← add_days current_day (max_days - 1);
        let chunk_end := Z.min ce end_date in
        next ← add_days chunk_end 1;
        rest ← chunk_loop f next end_date max_days;
        Some ((current_day, chunk_end) :: rest)
      else Some []
  end.

(** [_chunk_data_range] *)
Definition chunk_data_range (start_date end_date max_days : Z) : option (list (Z * Z)) :=
  chunk_loop (Z.to_nat (end_date - start_date + 1)) start_date end_date max_days.

(** The chunks tile [[s, e]]: the first starts at [s], each starts the day
    after the previous one ends, each is non-empty, the last ends at [e]. *)
Fixpoint tiles (s e : Z) (cs : list (Z * Z)) : Prop :=
  match cs with
  | [] => False
  | [(a, b)] => a = s /\ a <= b /\ b = e
  | (a, b) :: rest => a = s /\ a <= b /\ b < e /\ tiles (b + 1) e rest
  end.

End BseChunk.

(* ===================================================================== *)
(** ** NSE request retries ([crawler/nse_ann.py]) *)
(* ===================================================================== *)

Module NseRetry.
Local Open Scope Q_scope.

(** What happens in one attempt: the referer page or the API call raises a
    [RequestException]; the API call answers 200 but [response.json()]
    raises [JSONDecodeError], which is a [RequestException] of [requests]
    and is caught by the same [except] clause; or the API call answers with
    a status, where [Status 200] is a 200 whose body parses as JSON. *)
Inductive outcome := RefererRaises | ApiRaises | JsonRaises | Status (code : Z).

(** Observable effects: a [time.sleep], a call to [_initialize_session]. *)
Inductive event := Sleep (seconds : Q) | InitSession.

(** [random.uniform(a, b)] at a draw [r] in [[0, 1]]. *)
Definition uniform (a b r : Q) : Q := a + (b - a) * r.

(** The anti-bot wait [(2 ** attempt) * random.uniform(10, 20)]. *)
Definition blocked_wait (attempt : nat) (r : Q) : Q :=
  inject_Z (2 ^ Z.of_nat attempt) * uniform 10 20 r.

(** Its mean over the uniform draw: [wait] is affine in the draw, so the
    mean is the wait at the mean draw [1/2]. *)
Definition expected_blocked_wait (attempt : nat) : Q :=
  inject_Z (2 ^ Z.of_nat attempt) * ((10 + 20) / 2).

Definition is_blocked (code : Z) : bool := existsb (Z.eqb code) [403; 429; 503]%Z.

Section Request.

(** The answer of the server at each attempt and the random draws, in the
    order [random.uniform] is called by [_make_request] (the warm-up delay
    inside [_initialize_session] is part of session set-up). *)
Variable answer : nat -> outcome.
Variable draw : nat -> Q.

(** The [for attempt in range(max_retries)] loop: the events, and whether
    some attempt returned [response.json()]. [k] counts the draws. *)
Fixpoint attempts (max_retries : nat) (todo : list nat) (k : nat) : list event * bool :=
  match todo with
  | [] => ([], false)
  | attempt :: rest =>
      let exc_wait :=
        if (attempt <? max_retries - 1)%nat then
          let '(evs, ok) := attempts max_retries rest (S k) in
          (Sleep (uniform 15 30 (draw k)) :: InitSession :: evs, ok)
        else attempts max_retries rest k in
      match answer attempt with
      | RefererRaises => exc_wait
      | ApiRaises | JsonRaises =>
          let '(evs, ok) :=
            if (attempt <? max_retries - 1)%nat then
              let '(evs, ok) := attempts max_retries rest (S (S k)) in
              (Sleep (uniform 15 30 (draw (S k))) :: InitSession :: evs, ok)
            else attempts max_retries rest (S k) in
          (Sleep (uniform 2 4 (draw k)) :: evs, ok)
      | Status 200 => ([Sleep (uniform 2 4 (draw k))], true)
      | Status code =>
          if is_blocked code then
            let '(evs, ok) := attempts max_retries rest (S (S k)) in
            (Sleep (uniform 2 4 (draw k)) :: Sleep (blocked_wait attempt (draw (S k)))
               :: InitSession :: evs, ok)
          else
            let '(evs, ok) := attempts max_retries rest (S k) in
            (Sleep (uniform 2 4 (draw k)) :: evs, ok)
      end
  end.

(** [_make_request] *)
Definition make_request (max_retries : nat) : list event * bool :=
  attempts max_retries (seq 0 max_retries) 0.

End Request.

End NseRetry.

(* ===================================================================== *)
(** ** JSON bodies and the Python operations the crawlers apply to them *)
(* ===================================================================== *)

Module Json.
Import Text.
Local Open Scope Z_scope.

Local Set Warnings "-register-all".

(** A value returned by [response.json()] (numbers are integers here). *)
Inductive json : Type :=
  | JNull
  | JBool (b : bool)
  | JNum (n : Z)
  | JStr (s : string)
  | JArr (l : list json)
  | JObj (kv : list (string * json)).

(** Python truth value. *)
Definition json_truthy (j : json) : bool :=
  match j with
  | JNull => false
  | JBool b => b
  | JNum n => negb (n =? 0)
  | JStr s => negb (String.eqb s "")
  | JArr l => match l with [] => false | _ => true end
  | JObj kv => match kv with [] => false | _ => true end
  end.

(** [d.get(k)] on the dictionary [json.loads] builds: with a repeated key
    the last value wins. *)
Definition dict_get (k : string) (kv : list (string * json)) : option json :=
  fold_left (fun acc '(k', v) => if String.eqb k' k then Some v else acc) kv None.

(** The keys of that dictionary, in order of first appearance. *)
Fixpoint dict_keys (kv : list (string * json)) : list string :=
  match kv with
  | [] => []
  | (k, _) :: t => k :: List.filter (fun k' => negb (String.eqb k' k)) (dict_keys t)
  end.

(** [len(j)]; [None] is a [TypeError]. *)
Definition len (j : json) : option nat :=
  match j with
  | JArr l => Some (List.length l)
  | JObj kv => Some (List.length (dict_keys kv))
  | JStr s => Some (String.length s)
  | _ => None
  end.

(** The items of [list.extend(j)]; [None] is a [TypeError]. *)
Definition iter (j : json) : option (list json) :=
  match j with
  | JArr l => Some l
  | JObj kv => Some (map JStr (dict_keys kv))
  | JStr s => Some (map (fun c => JStr (String c EmptyString)) (chars s))
  | _ => None
  end.

(** [k in j] for a string [k]; [None] is a [TypeError]. *)
Definition py_in (k : string) (j : json) : option bool :=
  match j with
  | JObj kv => Some (existsb (fun '(k', _) => String.eqb k' k) kv)
  | JArr l => Some (existsb (fun x => match x with JStr s => String.eqb s k | _ => false end) l)
  | JStr s => Some (contains k s)
  | _ => None
  end.

Inductive py_exn := PyTypeError | PyAttributeError | PyOverflowError.

(** A call that returns, raises, or has not finished within the fuel it
    was given (a [while True] loop). *)
Inductive run (A : Type) : Type :=
  | Returns (a : A)
  | Raises (e : py_exn)
  | OutOfFuel.
Arguments Returns {A} a.
Arguments Raises {A} e.
Arguments OutOfFuel {A}.

End Json.

(* ===================================================================== *)
(** ** BSE API requests and pagination ([crawler/bse_ann.py]) *)
(* ===================================================================== *)

Module BseFetch.
Import Text Json.
Local Open Scope Z_scope.

(** What one [session.get] of the API yields: a [RequestException] (a
    connection error or timeout), or a response with its status and its
    body as parsed by [response.json()] ([None]: not JSON, which raises
    [requests.exceptions.JSONDecodeError], itself a [RequestException]). *)
Inductive answer := ReqRaises | Answer (status : Z) (body : option json).

Section Request.

(** The answer the server gives at each attempt. *)
Variable ans : nat -> answer.

(** The [for attempt in range(max_retries)] loop of [_make_request]: the
    seconds of each [time.sleep], and the returned JSON. *)
Fixpoint attempts (todo : list nat) : list Q * option json :=
  match todo with
  | [] => ([], None)
  | attempt :: rest =>
      match ans attempt with
      | Answer 200 (Some j) => ([1 # 2]%Q, Some j)
      | _ => let '(sl, r) := attempts rest in
             ((1 # 2)%Q :: inject_Z (2 ^ Z.of_nat attempt) :: sl, r)
      end
  end.

(** [_make_request] *)
Definition make_request (max_retries : nat) : list Q * option json :=
  attempts (seq 0 max_retries).

End Request.

(** The seconds slept in all. *)
Definition total_sleep (sl : list Q) : Q := fold_right Qplus 0%Q sl.

(** The test [data and 'Table' in data and data['Table']] on the result of
    [_make_request], and the items [announcements.extend] then adds:
    [Some None] leaves the loop, [None] is a [TypeError]. *)
Definition table_of (data : option json) : option (option (list json)) :=
  match data with
  | None => Some None
  | Some d =>
      if negb (json_truthy d) then Some None
      else match py_in "Table" d with
           | None => None
           | Some false => Some None
           | Some true =>
               match d with
               | JObj kv =>
                   match dict_get "Table" kv with
                   | Some t => if json_truthy t then option_map Some (iter t) else Some None
                   | None => Some None
                   end
               | _ => None
               end
           end
  end.

Section Chunk.

(** The answer to the request for page [page_no] at each attempt. *)
Variable page_answer : nat -> nat -> answer.

(** The [while True] loop of [_fetch_date_chunk]. *)
Fixpoint fetch_pages (fuel : nat) (page_no : nat) (announcements : list json) : run (list json) :=
  match fuel with
  | O => OutOfFuel
  | S f =>
      match table_of (snd (make_request (page_answer page_no) 3)) with
      | None => Raises PyTypeError
      | Some None => Returns announcements
      | Some (Some page) => fetch_pages f (S page_no) (announcements ++ page)
      end
  end.

(** [_fetch_date_chunk] *)
Definition fetch_date_chunk (fuel : nat) : run (list json) := fetch_pages fuel 1 [].

End Chunk.

Section Paginated.

(** The answer to the request for a chunk (its first and last day as
    ordinals), a page and an attempt; [fuel] bounds the pages of a chunk. *)
Variable chunk_answer : Z -> Z -> nat -> nat -> answer.
Variable fuel : nat.



End Paginated.

End BseFetch.

(* ===================================================================== *)
(** ** NSE announcements ([crawler/nse_ann.py]) *)
(* ===================================================================== *)

Module NseFetch.
Import Json NseRetry.
Local Open Scope Q_scope.

Section Response.

Variable answer : nat -> outcome.
(** The body [response.json()] parses at each attempt. *)
Variable body : nat -> json.

(** The value [_make_request] returns: the JSON of the first attempt
    answered 200 with a body that parses ([Status 200]), [None] when there
    is none. *)
Fixpoint first_ok (todo : list nat) : option json :=
  match todo with
  | [] => None
  | attempt :: rest =>
      match answer attempt with
      | Status 200 => Some (body attempt)
      | _ => first_ok rest
      end
  end.

Definition request_result (max_retries : nat) : option json := first_ok (seq 0 max_retries).

End Response.

(** The seconds slept in all by a sequence of events. *)
Definition total_sleep (evs : list event) : Q :=
  fold_right (fun e acc => match e with Sleep q => q + acc | InitSession => acc end) 0 evs.

Definition max_session_duration : Q := 300.

(** [_session_expired] at clock reading [now]. *)
Definition session_expired (session_start_time : option Q) (now : Q) : bool :=
  match session_start_time with
  | None => true
  | Some t =>
      if Qeq_bool t 0 then true
      else if Qlt_le_dec max_session_duration (now - t) then true else false
  end.

(** The message of [is_valid_response]. *)
Inductive validity_msg := NoDataFound | Found (n : nat) | Unexpected | InvalidType.

(** [is_valid_response]: the returned tuple; [None] is the [TypeError] of
    [len(data['data'])]. *)
Definition is_valid_response (data : option json) : option (bool * validity_msg) :=
  match data with
  | Some (JObj kv) =>
      if match dict_get "msg" kv with Some (JStr m) => String.eqb m "no data found" | _ => false end
      then Some (true, NoDataFound)
      else match dict_get "data" kv with
           | Some v => if json_truthy v then option_map (fun n => (true, Found n)) (len v)
                       else Some (false, Unexpected)
           | None => Some (false, Unexpected)
           end
  | _ => Some (false, InvalidType)
  end.

(** A non-empty tuple is true. *)
Definition tuple_truthy (t : bool * validity_msg) : bool := true.

(** [get_corporate_announcements]: [expired] is [self._session_expired()],
    [init_ok] what [_initialize_session()] returns if it is called, and
    [response] what [_make_request] returns. *)
Definition get_corporate_announcements (expired init_ok : bool) (response : option json) : run json :=
  if expired && negb init_ok then Returns (JArr [])
  else match is_valid_response response with
       | None => Raises PyTypeError
       | Some t =>
           if tuple_truthy t then
             match response with
             | Some (JObj kv) =>
                 let v := default (JArr []) (dict_get "data" kv) in
                 match len v with            (* the log line computes [len] first *)
                 | Some _ => Returns v
                 | None => Raises PyTypeError
                 end
             | _ => Raises PyAttributeError   (* [.get] on [None], a list, ... *)
             end
           else match response with
                | Some (JArr (_ :: _) as l) => Returns l
                | _ => Returns (JArr [])
                end
       end.

End NseFetch.

(* ===================================================================== *)
(** ** Request pacing of the PDF store ([etl/minio_client.py]) *)
(* ===================================================================== *)

Module RateLimit.
Local Open Scope Q_scope.

Definition min_request_interval : Q := 1.

(** [_rate_limit] called at clock reading [current_time]: the seconds it
    sleeps and the new [last_request_time], the clock read after the sleep
    ([time_after]). *)
Definition rate_limit (last_request_time current_time time_after : Q) : Q * Q :=
  let time_since_last := current_time - last_request_time in
  if Qlt_le_dec time_since_last min_request_interval
  then (min_request_interval - time_since_last, time_after)
  else (0, time_after).

End RateLimit.

(* ===================================================================== *)
(** ** From the processor to the database ([usage_example.py]) *)
(* ===================================================================== *)

Module Pipeline.
Import Text DateTime Classifier Db Processor.

(** [main] hands [financial_data] straight to [insert_financial_snapshots]:
    a processed record read as a snapshot dictionary. It has a ['date']
    (a [datetime]) and no ['filing_date']; its ['extracted_data'] has
    [period], [quarter] and [audit_status] and none of the amounts. *)
Definition snapshot_of_processed (p : processed) : snapshot :=
  mk_snap (Some (pd_symbol p)) (Some (VDate (pd_date p))) None
    (option_map (fun i => mk_extracted (period i) (quarter i) (audit_status i)
                                       None None None None None)
                (pd_extracted_data p)).

(** The row the last record of [batch] with key [k] writes, [dflt] if none
    does. *)
Fixpoint last_row_for (strptime_fallback : string -> option datetime) (batch : list announcement)
    (k : key) (dflt : option ann_row) : option ann_row :=
  match batch with
  | [] => dflt
  | a :: rest =>
      last_row_for strptime_fallback rest k
        match prepare_announcement_data strptime_fallback a with
        | Ok (Some p) => if decide ((p_symbol p, p_filing_date p) = k) then Some (p_row p) else dflt
        | _ => dflt
        end
  end.

End Pipeline.

(* ===================================================================== *)
(** * Properties *)
(* ===================================================================== *)

Module Props.
Import Text DateTime Classifier Db Storage Processor.

(** Sample inputs. *)
Definition sample_now : datetime := mkdt 2025 10 14 9 30 0 0.

Definition financial_ann (attachment : string) : announcement :=
  mk_ann (Some "500325") (Some "2025-06-30T18:35:12") None (Some "N1") (Some "Result")
         (Some "Reliance Industries Ltd") (Some "Financial Results for quarter ended 30.06.2025")
         None (Some attachment) None None.

Definition other_ann : announcement :=
  mk_ann (Some "532540") (Some "2025-06-30T19:00:00") None (Some "N2") (Some "Result")
         (Some "TCS Ltd") (Some "Results") None (Some "b.pdf") None None.

(** A BSE server whose home and announcement pages answer 200 and every other
    URL answers [code]. *)
Definition server (code : Z) : net :=
  fun u => if String.eqb u (bse_base_url ++ "/") then Resp 200 []
           else if String.eqb u (bse_base_url ++ "/corporates/ann.html") then Resp 200 []
           else Resp code [].

Definition empty_state : pstate := mk_pstate (mk_store false ∅) ∅.

Definition c7_text : string := "unaudited standalone results for quarter ended 30.06.2025".

(** A snapshot batch with one orphan and one snapshot whose announcement
    exists. *)
Definition sample_key : key := ("500325", mkdt 2025 6 30 18 35 12 0).
Definition sample_row : ann_row :=
  mk_row "Reliance Industries Ltd" "Result" "Results" "HIGH" (financial_ann "a.pdf") None false.
Definition sample_snap_params : snap_params :=
  mk_sparams "500325" (Some (mkdt 2025 6 30 18 35 12 0)) None no_extracted.

Definition sample_snapshots : list snapshot :=
  [mk_snap (Some "999999") (Some (VDate (mkdt 2025 6 30 18 35 12 0))) None None;
   mk_snap (Some "500325") (Some (VDate (mkdt 2025 6 30 18 35 12 0))) None None].

Definition sample_anns : gmap key ann_row := {[sample_key := sample_row]}.

(** A snapshot whose parent announcement is present. *)
Definition snapshot_has_parent (strptime_fallback : string -> option datetime)
    (strptime_dmy : string -> option cal_date) (anns : gmap key ann_row) (s : snapshot) : bool :=
  match prepare_snapshot_data strptime_fallback strptime_dmy s with
  | Ok p => parent_exists anns p
  | Raise _ => false
  end.

(** A record [_prepare_announcement_data] accepts: it has a symbol and a
    filing date that parses. *)
Definition valid_announcement (strptime_fallback : string -> option datetime)
    (a : announcement) : Prop :=
  exists p, prepare_announcement_data strptime_fallback a = Ok (Some p).

(** C2 (code_bug): when the first [download_and_store_pdf] of a financial
    announcement fails (every attempt answers 500, so it returns [None]),
    [minio_path.lower()] raises [AttributeError] out of
    [process_announcements], and the next announcement of the batch is
    never processed. *)
Theorem process_announcements_failed_pdf_raises :
  fst (process_announcements (fun _ => None) (server 500) sample_now
         [financial_ann "a.pdf"; other_ann] empty_state) = Raise AttributeError.
Proof. vm_compute. reflexivity. Qed.

(** C3 (code_bug): a record without [SCRIP_CD] is turned into [None] by
    [_prepare_announcement_data], which [insert_announcements] still hands to
    [cursor.execute]: the statement fails, the batch (with its valid second
    record) is rolled back and the error is raised to the caller. *)
Theorem insert_announcements_missing_symbol_raises :
  insert_announcements (fun _ => None)
    [mk_ann None (Some "2025-06-30T10:00:00") None (Some "N3") (Some "Result")
            (Some "X Ltd") (Some "Results") None None None None;
     financial_ann "a.pdf"] ∅
  = (Raise DatabaseError, ∅).
Proof. vm_compute. reflexivity. Qed.

(** C6 (code_bug): the category ["Results"] is in the results set of
    [_is_financial_announcement] (financial, whatever the headline), but
    [_determine_confidence] gives it ["LOW"], not ["HIGH"]. *)
Theorem results_category_low_confidence (subject : string) :
  is_financial_announcement "Results" subject = true /\
  determine_confidence "Results" subject = "LOW".
Proof. split; reflexivity. Qed.

(** C7 (counterexample): on ["unaudited standalone results for quarter ended
    30.06.2025"] the extractor does not leave the quarter null. *)
Lemma extract_c7_quarter_not_null :
  ~ (exists i, extract_financial_info_from_text (announcement_with_subject c7_text) = Some i /\
               result_type i = Some "standalone" /\ audit_status i = Some "unaudited" /\
               period i = Some "30.06.2025" /\ quarter i = None).
Proof.
  intros [i [H [_ [_ [_ Hq]]]]]. vm_compute in H. injection H as <-. discriminate Hq.
Qed.

(** C7 (amended): on that text the extractor returns type ["standalone"],
    audit status ["unaudited"], period ["30.06.2025"], no financial year,
    and quarter ["Q3"]: [quarter.*?([1-4])] takes the first digit 1-4 after
    "quarter", the 3 of "30.06.2025". *)
Theorem extract_c7 :
  extract_financial_info_from_text (announcement_with_subject c7_text) =
  Some (mk_info (Some "30.06.2025") (Some "standalone") None (Some "Q3") (Some "unaudited")).
Proof. vm_compute. reflexivity. Qed.

(** C8 (counterexample): a filing date that [fromisoformat] rejects (the
    empty string) makes the path depend on the clock: two calls one second
    apart give different paths. *)
Lemma generate_pdf_path_clock_dependent :
  generate_pdf_path (mkdt 2025 10 14 9 30 0 0) "500325" "" "HIGH" <>
  generate_pdf_path (mkdt 2025 10 14 9 30 1 0) "500325" "" "HIGH".
Proof. vm_compute. discriminate. Qed.

(** C8 (amended): whenever the filing date parses with [fromisoformat]
    (after ['Z'] is replaced by ['+00:00']), [generate_pdf_path] does not
    depend on the clock: identical arguments give identical paths. *)
Theorem generate_pdf_path_deterministic (now1 now2 : datetime)
    (symbol filing_date confidence : string) (d : datetime) :
  fromisoformat (replace_char "Z" "+00:00" filing_date) = Some d ->
  generate_pdf_path now1 symbol filing_date confidence =
  generate_pdf_path now2 symbol filing_date confidence.
Proof. intros H. unfold generate_pdf_path. rewrite H. reflexivity. Qed.

Lemma generate_pdf_path_deterministic_witness :
  generate_pdf_path (mkdt 2025 10 14 9 30 0 0) "500325" "2025-06-30T18:35:12.43" "HIGH" =
  generate_pdf_path (mkdt 2025 10 14 9 30 1 0) "500325" "2025-06-30T18:35:12.43" "HIGH".
Proof.
  apply (generate_pdf_path_deterministic _ _ _ _ _ (mkdt 2025 6 30 18 35 12 430000)).
  vm_compute. reflexivity.
Defined.

(** ** The snapshot loop *)

Section SnapshotProofs.
Variables (strptime_fallback : string -> option datetime) (strptime_dmy : string -> option cal_date)
          (db_now : Z) (anns : gmap key ann_row).

Lemma parent_exists_lookup (p : snap_params) (d : datetime) :
  parent_exists anns p = true -> sp_filing_date p = Some d -> is_Some (anns !! (sp_symbol p, d)).
Proof.
  unfold parent_exists. intros H Hd. rewrite Hd in H. by apply bool_decide_eq_true in H.
Qed.

Lemma upsert_snapshot_lookup (k k' : key) (p : snap_params) (snaps : gmap key snap_row) :
  is_Some (upsert_snapshot db_now k p snaps !! k') -> k' = k \/ is_Some (snaps !! k').
Proof.
  unfold upsert_snapshot. destruct (snaps !! k); rewrite lookup_insert;
    case_decide; auto.
Qed.

Lemma snapshots_loop_spec (batch : list snapshot) :
  forall (snaps snaps' : gmap key snap_row) (n m : nat),
  snapshots_loop strptime_fallback strptime_dmy db_now anns batch snaps n = Ok (m, snaps') ->
  (forall k, is_Some (snaps' !! k) -> snaps !! k = None -> is_Some (anns !! k)) /\
  m = (n + List.length (List.filter (snapshot_has_parent strptime_fallback strptime_dmy anns) batch))%nat.
Proof.
  induction batch as [|s rest IH]; simpl; intros snaps snaps' n m H.
  - injection H as <- <-. split; [intros k Hk Hn; rewrite Hn in Hk; by destruct Hk | lia].
  - unfold snapshot_has_parent at 1.
    destruct (prepare_snapshot_data strptime_fallback strptime_dmy s) as [p|e] eqn:Hp;
      simpl in H; [|discriminate].
    destruct (parent_exists anns p) eqn:Hpar.
    + destruct (sp_filing_date p) as [d|] eqn:Hd.
      * destruct (IH _ _ _ _ H) as [Hk Hm]. split; [|simpl; lia].
        intros k Hs Hn.
        destruct (decide (is_Some (upsert_snapshot db_now (sp_symbol p, d) p snaps !! k)))
          as [Hu|Hu].
        -- destruct (upsert_snapshot_lookup _ _ _ _ Hu) as [->|Hs0].
           ++ by apply (parent_exists_lookup p d).
           ++ rewrite Hn in Hs0. by destruct Hs0.
        -- apply Hk; [done|]. by apply eq_None_not_Some.
      * unfold parent_exists in Hpar. rewrite Hd in Hpar. discriminate.
    + destruct (IH _ _ _ _ H) as [Hk Hm]. split; [exact Hk | lia].
Qed.

End SnapshotProofs.

(** C1: whenever [insert_financial_snapshots] commits, every row of
    [financial_snapshots] it created has a matching row (same
    [(symbol, filing_date)]) in [announcements], and the processed count is
    the number of snapshots whose parent announcement exists: a snapshot
    without one adds no row and no count. On an exception nothing is
    committed. *)
Theorem insert_financial_snapshots_no_orphans
    (strptime_fallback : string -> option datetime) (strptime_dmy : string -> option cal_date)
    (db_now : Z) (anns : gmap key ann_row) (batch : list snapshot)
    (snaps snaps' : gmap key snap_row) (r : res nat) :
  insert_financial_snapshots strptime_fallback strptime_dmy db_now anns batch snaps = (r, snaps') ->
  (forall k, is_Some (snaps' !! k) -> snaps !! k = None -> is_Some (anns !! k)) /\
  (forall n, r = Ok n ->
     n = List.length (List.filter (snapshot_has_parent strptime_fallback strptime_dmy anns) batch)) /\
  (forall e, r = Raise e -> snaps' = snaps).
Proof.
  unfold insert_financial_snapshots. intros H. destruct batch as [|s rest].
  - injection H as <- <-. split; [|split].
    + intros k Hk Hn. rewrite Hn in Hk. by destruct Hk.
    + intros n [= <-]. reflexivity.
    + discriminate.
  - destruct (snapshots_loop strptime_fallback strptime_dmy db_now anns (s :: rest) snaps 0)
      as [[n snaps1]|e] eqn:Hl.
    + injection H as <- <-.
      destruct (snapshots_loop_spec _ _ _ _ _ _ _ _ _ Hl) as [Hk Hm].
      split; [exact Hk | split; [intros n' [= <-]; lia | discriminate]].
    + injection H as <- <-. split; [|split].
      * intros k Hk Hn. rewrite Hn in Hk. by destruct Hk.
      * discriminate.
      * reflexivity.
Qed.

Lemma insert_financial_snapshots_no_orphans_witness :
  fst (insert_financial_snapshots (fun _ => None) (fun _ => None) 0 sample_anns sample_snapshots ∅)
    = Ok 1 /\
  List.length (List.filter (snapshot_has_parent (fun _ => None) (fun _ => None) sample_anns)
    sample_snapshots) = 1%nat.
Proof.
  assert (Hr : fst (insert_financial_snapshots (fun _ => None) (fun _ => None) 0 sample_anns
                      sample_snapshots ∅) = Ok 1) by (vm_compute; reflexivity).
  split; [exact Hr|].
  refine (proj1 (proj2 (insert_financial_snapshots_no_orphans (fun _ => None) (fun _ => None) 0
     sample_anns sample_snapshots ∅ _ _ (surjective_pairing _))) 1 Hr).
Defined.

(** ** Re-running the announcement upsert *)

Section AnnouncementProofs.
Variable strptime_fallback : string -> option datetime.

(** On valid records the loop writes a fixed set of rows over the table. *)
Lemma announcements_loop_union (batch : list announcement) :
  Forall (valid_announcement strptime_fallback) batch ->
  exists rows : gmap key ann_row, forall tbl n,
    announcements_loop strptime_fallback batch tbl n = Ok (n + List.length batch, rows ∪ tbl)%nat.
Proof.
  induction 1 as [|a rest [p Hp] _ [rows IH]].
  - exists ∅. intros tbl n. simpl. rewrite (left_id_L ∅ (∪)). f_equal. f_equal. lia.
  - exists (rows ∪ {[(p_symbol p, p_filing_date p) := p_row p]}). intros tbl n. simpl.
    rewrite Hp. simpl. rewrite IH. f_equal. f_equal; [lia|].
    rewrite insert_union_singleton_l. by rewrite (assoc_L (∪)).
Qed.

End AnnouncementProofs.

(** C5: for a batch of valid records, running [insert_announcements] a
    second time on the table the first run committed succeeds with the same
    count and leaves exactly the same rows: no row is added, every record
    meets its own key and is updated in place. *)
Theorem insert_announcements_idempotent (strptime_fallback : string -> option datetime)
    (batch : list announcement) (tbl : gmap key ann_row) :
  Forall (valid_announcement strptime_fallback) batch ->
  exists n tbl1,
    insert_announcements strptime_fallback batch tbl = (Ok n, tbl1) /\
    insert_announcements strptime_fallback batch tbl1 = (Ok n, tbl1).
Proof.
  intros Hv. destruct (announcements_loop_union strptime_fallback batch Hv) as [rows Hrows].
  unfold insert_announcements. destruct batch as [|a rest].
  - by exists 0%nat, tbl.
  - exists (List.length (a :: rest)), (rows ∪ tbl). rewrite !Hrows. simpl. split; [done|].
    by rewrite (assoc_L (∪)), (idemp_L (∪)).
Qed.

Lemma insert_announcements_idempotent_witness :
  exists n tbl1,
    insert_announcements (fun _ => None) [financial_ann "a.pdf"; other_ann] ∅ = (Ok n, tbl1) /\
    insert_announcements (fun _ => None) [financial_ann "a.pdf"; other_ann] tbl1 = (Ok n, tbl1).
Proof.
  apply insert_announcements_idempotent.
  repeat constructor; eexists; vm_compute; reflexivity.
Defined.

(** ** Date chunks *)

Section ChunkProofs.
Import BseChunk.
Local Open Scope Z_scope.

(** C4 (counterexample): a range ending on 9999-12-31 makes
    [chunk_end + timedelta(days=1)] leave the range of [datetime]:
    [_chunk_data_range('99991231', '99991231')] raises [OverflowError]
    instead of returning chunks. *)
Lemma chunk_data_range_last_day_overflows :
  chunk_data_range max_ordinal max_ordinal 1 = None.
Proof. reflexivity. Qed.

Lemma add_days_ok (d n : Z) : 1 <= d + n <= max_ordinal -> add_days d n = Some (d + n).
Proof.
  intros H. unfold add_days.
  by rewrite (proj2 (Z.leb_le 1 (d + n))), (proj2 (Z.leb_le (d + n) max_ordinal)) by lia.
Qed.

Lemma chunk_loop_tiles (e md : Z) :
  1 <= md -> e < max_ordinal -> e + md - 1 <= max_ordinal ->
  forall (fuel : nat) (cur : Z), 1 <= cur <= e -> (Z.to_nat (e - cur + 1) <= fuel)%nat ->
  exists cs, chunk_loop fuel cur e md = Some cs /\ tiles cur e cs.
Proof.
  intros Hmd He Hmax. induction fuel as [|f IH]; intros cur Hcur Hf; [lia|].
  simpl. rewrite (proj2 (Z.leb_le cur e)) by lia.
  rewrite (add_days_ok cur (md - 1)) by lia. cbn [mbind option_bind].
  rewrite (add_days_ok (Z.min (cur + (md - 1)) e) 1) by lia. cbn [mbind option_bind].
  destruct (Z.le_gt_cases e (cur + (md - 1))) as [Hlast|Hmore].
  - rewrite Z.min_r by lia.
    assert (Hrest : chunk_loop f (e + 1) e md = Some []).
    { destruct f; simpl; [reflexivity|]. by rewrite (proj2 (Z.leb_gt (e + 1) e)) by lia. }
    rewrite Hrest. cbn [mbind option_bind]. exists [(cur, e)]. split; [reflexivity|]. simpl. lia.
  - rewrite Z.min_l by lia.
    destruct (IH (cur + (md - 1) + 1)) as [cs [Hcs Ht]]; [lia | lia |].
    rewrite Hcs. cbn [mbind option_bind]. exists ((cur, cur + (md - 1)) :: cs). split; [reflexivity|].
    destruct cs as [|c cs']; [done|]. simpl. split; [reflexivity|]. split; [lia|]. split; [lia|].
    exact Ht.
Qed.

Lemma tiles_bounds (cs : list (Z * Z)) :
  forall s e, tiles s e cs -> Forall (fun c => s <= fst c /\ fst c <= snd c /\ snd c <= e) cs.
Proof.
  induction cs as [|[a b] rest IH]; intros s e Ht; [done|].
  destruct rest as [|c rest'].
  - destruct Ht as [-> [Hab ->]]. repeat constructor; simpl; lia.
  - destruct Ht as [-> [Hab [Hbe Ht]]]. constructor; [simpl; lia|].
    eapply Forall_impl; [exact (IH _ _ Ht)|]. simpl. lia.
Qed.

Lemma tiles_cover (cs : list (Z * Z)) :
  forall s e, tiles s e cs ->
  forall d, s <= d <= e <-> exists c, In c cs /\ fst c <= d <= snd c.
Proof.
  induction cs as [|[a b] rest IH]; intros s e Ht d; [done|].
  destruct rest as [|c rest'].
  - destruct Ht as [-> [Hab ->]]. split.
    + intros Hd. exists (s, e). simpl. auto.
    + intros [c [[<-|[]] Hc]]. simpl in Hc. lia.
  - destruct Ht as [-> [Hab [Hbe Ht]]]. pose proof (IH _ _ Ht d) as Hr. split.
    + intros Hd. destruct (Z.le_gt_cases d b).
      * exists (s, b). simpl. split; [auto | lia].
      * destruct (proj1 Hr) as [c' [Hin Hc']]; [lia|]. exists c'. simpl. auto.
    + intros [c' [[<-|Hin] Hc']]; [simpl in Hc'; lia|].
      assert (b + 1 <= d <= e) by (apply Hr; eauto). lia.
Qed.

Lemma tiles_disjoint (cs : list (Z * Z)) :
  forall s e, tiles s e cs -> ForallOrdPairs (fun c1 c2 => snd c1 < fst c2) cs.
Proof.
  induction cs as [|[a b] rest IH]; intros s e Ht; [constructor|].
  destruct rest as [|c rest'].
  - repeat constructor.
  - destruct Ht as [-> [Hab [Hbe Ht]]]. constructor.
    + apply Forall_forall. intros c' Hin.
      pose proof (proj1 (Forall_forall _ _) (tiles_bounds _ _ _ Ht) c' Hin). simpl in *. lia.
    + exact (IH _ _ Ht).
Qed.

End ChunkProofs.

(** C4 (amended): for every range [start_date <= end_date] of valid dates
    that ends before 9999-12-31, and every [max_days >= 1] with
    [end_date + (max_days - 1)] days still a valid date, [_chunk_data_range]
    returns chunks that tile the range: the first starts at [start_date],
    each starts the day after the previous one ends, the last ends at
    [end_date]; they are pairwise disjoint and their days are exactly the
    days of the range. *)
Theorem chunk_data_range_tiles (start_date end_date max_days : Z) :
  (1 <= start_date <= end_date)%Z -> (end_date < BseChunk.max_ordinal)%Z -> (1 <= max_days)%Z ->
  (end_date + max_days - 1 <= BseChunk.max_ordinal)%Z ->
  exists cs, BseChunk.chunk_data_range start_date end_date max_days = Some cs /\
    BseChunk.tiles start_date end_date cs /\
    ForallOrdPairs (fun c1 c2 => (snd c1 < fst c2)%Z) cs /\
    (forall d, (start_date <= d <= end_date)%Z <-> exists c, In c cs /\ (fst c <= d <= snd c)%Z).
Proof.
  intros Hr He Hmd Hmax.
  destruct (chunk_loop_tiles end_date max_days Hmd He Hmax
              (Z.to_nat (end_date - start_date + 1)) start_date Hr (le_n _)) as [cs [Hcs Ht]].
  exists cs. split; [exact Hcs|]. split; [exact Ht|]. split.
  - exact (tiles_disjoint _ _ _ Ht).
  - exact (tiles_cover _ _ _ Ht).
Qed.

(** 2025-06-01 .. 2025-06-10 ([date.toordinal] 739403 .. 739412) in chunks
    of 4 days. *)
Lemma chunk_data_range_tiles_witness :
  exists cs, BseChunk.chunk_data_range 739403 739412 4 = Some cs /\
    BseChunk.tiles 739403 739412 cs /\
    ForallOrdPairs (fun c1 c2 => (snd c1 < fst c2)%Z) cs /\
    (forall d, (739403 <= d <= 739412)%Z <-> exists c, In c cs /\ (fst c <= d <= snd c)%Z).
Proof. apply chunk_data_range_tiles; vm_compute; try split; discriminate. Defined.

(** ** NSE backoff *)

Section RetryProofs.
Import NseRetry.
Local Open Scope Q_scope.

Lemma is_blocked_cases (c : Z) : is_blocked c = true -> c = 403%Z \/ c = 429%Z \/ c = 503%Z.
Proof.
  unfold is_blocked. simpl. intros H.
  repeat (apply orb_true_iff in H as [H|H]; [apply Z.eqb_eq in H; auto|]). discriminate.
Qed.

End RetryProofs.

(** C9: when attempts 0, 1 and 2 are answered 403, 429 or 503,
    [_make_request] (default [max_retries = 3]) sleeps
    [(2 ** attempt) * uniform(10, 20)] after each of them and then
    reinitialises the session; every wait of attempt 0 is shorter than every
    wait of attempt 2, and so is its expected value (15 s against 60 s). *)
Theorem nse_blocked_backoff_grows (answer : nat -> NseRetry.outcome) (draw : nat -> Q)
    (c0 c1 c2 : Z) :
  (forall k, 0 <= draw k <= 1)%Q ->
  answer 0%nat = NseRetry.Status c0 -> answer 1%nat = NseRetry.Status c1 ->
  answer 2%nat = NseRetry.Status c2 ->
  NseRetry.is_blocked c0 = true -> NseRetry.is_blocked c1 = true -> NseRetry.is_blocked c2 = true ->
  NseRetry.make_request answer draw 3 =
    ([NseRetry.Sleep (NseRetry.uniform 2 4 (draw 0%nat));
      NseRetry.Sleep (NseRetry.blocked_wait 0 (draw 1%nat)); NseRetry.InitSession;
      NseRetry.Sleep (NseRetry.uniform 2 4 (draw 2%nat));
      NseRetry.Sleep (NseRetry.blocked_wait 1 (draw 3%nat)); NseRetry.InitSession;
      NseRetry.Sleep (NseRetry.uniform 2 4 (draw 4%nat));
      NseRetry.Sleep (NseRetry.blocked_wait 2 (draw 5%nat)); NseRetry.InitSession], false) /\
  (forall r0 r2, 0 <= r0 <= 1 -> 0 <= r2 <= 1 ->
     NseRetry.blocked_wait 0 r0 < NseRetry.blocked_wait 2 r2)%Q /\
  (NseRetry.expected_blocked_wait 0 < NseRetry.expected_blocked_wait 2)%Q.
Proof.
  intros Hd H0 H1 H2 B0 B1 B2. split; [|split].
  - unfold NseRetry.make_request. simpl. rewrite H0, H1, H2.
    destruct (is_blocked_cases c0 B0) as [->|[->| ->]];
    destruct (is_blocked_cases c1 B1) as [->|[->| ->]];
    destruct (is_blocked_cases c2 B2) as [->|[->| ->]]; reflexivity.
  - intros r0 r2 Hr0 Hr2. unfold NseRetry.blocked_wait, NseRetry.uniform.
    change (inject_Z (2 ^ Z.of_nat 0)) with (1 # 1)%Q.
    change (inject_Z (2 ^ Z.of_nat 2)) with (4 # 1)%Q. lra.
  - unfold NseRetry.expected_blocked_wait. vm_compute. reflexivity.
Qed.

Lemma nse_blocked_backoff_grows_witness :
  (NseRetry.blocked_wait 0 (1 # 2)%Q < NseRetry.blocked_wait 2 (1 # 2)%Q)%Q.
Proof.
  assert (Hd : forall k : nat, (0 <= (fun _ : nat => (1 # 2)%Q) k <= 1)%Q) by (intros; split; lra).
  exact (proj1 (proj2 (nse_blocked_backoff_grows (fun _ => NseRetry.Status 403) (fun _ => (1 # 2)%Q)
    403 403 403 Hd eq_refl eq_refl eq_refl eq_refl eq_refl eq_refl)) (1 # 2)%Q (1 # 2)%Q
    ltac:(split; lra) ltac:(split; lra)).
Defined.

(** ** A PDF missing under both URLs *)

Lemma initialize_bse_session_ok (web : net) (st st1 : store) (b : bool) :
  initialize_bse_session web st = (b, st1) -> b = true ->
  session_initialized st1 = true /\ objects st1 = objects st.
Proof.
  unfold initialize_bse_session. intros H ->.
  destruct (session_initialized st) eqn:Hs; [injection H as <-; auto|].
  repeat case_match; simplify_eq; simpl; auto.
Qed.

Lemma download_404 (web : net) (now : datetime) (url symbol filing_date conf : string)
    (st : store) (body : list ascii) :
  fst (initialize_bse_session web st) = true ->
  generate_pdf_path now symbol filing_date conf ∉ objects (snd (initialize_bse_session web st)) ->
  web url = Resp 404 body ->
  download_and_store_pdf web now url symbol filing_date conf 3 st =
    (Some "PDF Moved", snd (initialize_bse_session web st)).
Proof.
  intros Hi Hn Hw. unfold download_and_store_pdf.
  destruct (initialize_bse_session web st) as [ok st1]. simpl in *. subst ok. simpl.
  rewrite bool_decide_false by exact Hn. simpl. by rewrite Hw.
Qed.

(** C10: for a financial announcement with an attachment, a filing date
    that parses, a BSE session that initialises and no cached object, if
    both the [AttachLive] URL and the [AttachHis/{year}/{month}] URL answer
    404, [process_announcements] records it with [pdf_stored = True] and
    [minio_path = "PDF Moved"], and writes those two values onto its
    announcement row. *)
Theorem process_announcements_double_404
    (strptime_fallback : string -> option datetime) (web : net) (now : datetime)
    (a : announcement) (st : pstate) (dt : datetime) (b1 b2 : list ascii) :
  is_financial_announcement (strip (get_or (CATEGORYNAME a) "")) (lower (get_or (NEWSSUB a) ""))
    = true ->
  parse_iso_datetime strptime_fallback (get_or (NEWS_DT a) "") = Some dt ->
  get_or (ATTACHMENTNAME a) "" <> "" ->
  fst (initialize_bse_session web (st_store st)) = true ->
  generate_pdf_path now (get_or (SCRIP_CD a) "") (get_or (NEWS_DT a) "") "HIGH"
    ∉ objects (st_store st) ->
  web (bse_attachment_live ++ "/" ++ get_or (ATTACHMENTNAME a) "") = Resp 404 b1 ->
  web (bse_attachment_moved ++ "/" ++ slice (get_or (NEWS_DT a) "") 0 4 ++ "/"
       ++ slice (get_or (NEWS_DT a) "") 5 7 ++ "/" ++ get_or (ATTACHMENTNAME a) "") = Resp 404 b2 ->
  exists pd st',
    process_announcements strptime_fallback web now [a] st = (Ok [pd], st') /\
    pd_pdf_stored pd = Some true /\
    pd_minio_path pd = Some (Some "PDF Moved") /\
    st_anns st' = updated_pdf_status (get_or (SCRIP_CD a) "") dt (Some "PDF Moved") true (st_anns st).
Proof.
  intros Hfin Hdt Hatt Hinit Hnc Hw1 Hw2.
  destruct (initialize_bse_session web (st_store st)) as [ok st1] eqn:Hi.
  simpl in Hinit. subst ok.
  destruct (initialize_bse_session_ok _ _ _ _ Hi eq_refl) as [Hs1 Ho1].
  assert (Hi2 : initialize_bse_session web st1 = (true, st1))
    by (unfold initialize_bse_session; by rewrite Hs1).
  simpl. unfold process_one. rewrite Hfin, Hdt.
  rewrite (proj2 (String.eqb_neq _ _) Hatt).
  rewrite (download_404 web now _ _ _ _ _ b1); rewrite ?Hi; simpl; [| reflexivity | by rewrite Ho1 | exact Hw1].
  rewrite (download_404 web now _ _ _ _ _ b2); rewrite ?Hi2; simpl; [| reflexivity | by rewrite Ho1 | exact Hw2].
  eexists _, _. split; [reflexivity|]. simpl. auto.
Qed.

Lemma process_announcements_double_404_witness :
  exists pd st',
    process_announcements (fun _ => None) (server 404) sample_now [financial_ann "a.pdf"] empty_state
      = (Ok [pd], st') /\
    pd_pdf_stored pd = Some true /\
    pd_minio_path pd = Some (Some "PDF Moved") /\
    st_anns st' = updated_pdf_status "500325" (mkdt 2025 6 30 18 35 12 0) (Some "PDF Moved") true ∅.
Proof.
  apply (process_announcements_double_404 (fun _ => None) (server 404) sample_now
           (financial_ann "a.pdf") empty_state (mkdt 2025 6 30 18 35 12 0) [] []);
    try reflexivity; try discriminate.
Defined.

End Props.

(* ===================================================================== *)
(** * Further properties of the code *)
(* ===================================================================== *)

Module Extras.

Module T1.
Local Open Scope Q_scope.
Import Json NseRetry NseFetch.

Section S.
Variables (answer : nat -> outcome) (draw : nat -> Q).


Lemma attempts_snd (max : nat) (todo : list nat) :
  forall k, snd (attempts answer draw max todo k) = existsb (fun a => match answer a with Status 200 => true | _ => false end) todo.
Proof.
  induction todo as [|a rest IH]; intros k; [reflexivity|].
  simpl. 
  destruct (answer a) as [| | |c]; repeat case_match; simplify_eq/=;
    try reflexivity;
    try match goal with E : attempts _ _ _ _ ?k = _ |- _ => rewrite <- (IH k), E; reflexivity end.
  all: apply IH.
Qed.

Lemma inject_Z_succ (n : nat) : inject_Z (Z.of_nat (S n)) == inject_Z (Z.of_nat n) + 1.
Proof. rewrite Nat2Z.inj_succ, <- Z.add_1_r, inject_Z_plus. reflexivity. Qed.

Lemma inject_Z_pow_succ (n : nat) : inject_Z (2 ^ Z.of_nat (S n)) == 2 * inject_Z (2 ^ Z.of_nat n).
Proof. rewrite Nat2Z.inj_succ, Z.pow_succ_r by lia. rewrite inject_Z_mult. reflexivity. Qed.

Lemma inject_Z_pow_nonneg (n : nat) : 0 <= inject_Z (2 ^ Z.of_nat n).
Proof. change 0 with (inject_Z 0). rewrite <- Zle_Qle. apply Z.pow_nonneg. lia. Qed.

Lemma blocked_total (max : nat) :
  (forall j, 0 <= draw j <= 1)%Q ->
  forall m s k,
  (forall i, (s <= i < s + m)%nat -> exists c, answer i = Status c /\ is_blocked c = true) ->
  (2 * inject_Z (Z.of_nat m) + 10 * (inject_Z (2 ^ Z.of_nat (s + m)) - inject_Z (2 ^ Z.of_nat s))
     <= total_sleep (fst (attempts answer draw max (seq s m) k)))%Q /\
  (total_sleep (fst (attempts answer draw max (seq s m) k))
     <= 4 * inject_Z (Z.of_nat m) + 20 * (inject_Z (2 ^ Z.of_nat (s + m)) - inject_Z (2 ^ Z.of_nat s)))%Q.
Proof.
  intros Hd. induction m as [|m IH]; intros s k Hb.
  - rewrite Nat.add_0_r. unfold total_sleep. simpl. change (inject_Z (Z.of_nat 0)) with 0. split; lra.
  - destruct (Hb s ltac:(lia)) as [c [Hc Hbl]].
    destruct (IH (S s) (S (S k)) ltac:(intros i Hi; apply Hb; lia)) as [Hlo Hhi].
    cbn [seq attempts]. rewrite Hc.
    pose proof (inject_Z_succ m) as E1. pose proof (inject_Z_pow_succ s) as E2.
    replace (s + S m)%nat with (S s + m)%nat by lia.
    pose proof (inject_Z_pow_nonneg s) as HX.
    pose proof (Hd k) as Hk. pose proof (Hd (S k)) as Hk1.
    assert (HXr : 0 <= inject_Z (2 ^ Z.of_nat s) * draw (S k) <= inject_Z (2 ^ Z.of_nat s)).
    { split; [apply Qmult_le_0_compat; lra|].
      rewrite <- (Qmult_1_r (inject_Z (2 ^ Z.of_nat s))) at 2.
      apply Qmult_le_compat_nonneg; lra. }
    destruct (Props.is_blocked_cases c Hbl) as [->|[->| ->]]; cbn -[attempts];
    destruct (attempts answer draw max (seq (S s) m) (S (S k))) as [evs ok] eqn:E;
    simpl in Hlo, Hhi |- *; unfold total_sleep in *; simpl;
    unfold blocked_wait, uniform; split; lra.
Qed.


Lemma make_request_ok_spec (n : nat) :
  snd (make_request answer draw n) = true <-> exists i, (i < n)%nat /\ answer i = Status 200%Z.
Proof.
  unfold make_request. rewrite attempts_snd, existsb_exists.
  split.
  - intros [i [Hin Hi]]. apply in_seq in Hin. exists i. split; [lia|].
    destruct (answer i) as [| | |c]; repeat case_match; simplify_eq/=; done.
  - intros [i [Hi Ha]]. exists i. split; [apply in_seq; lia|]. by rewrite Ha.
Qed.

(** X1: NSE [_make_request] returns the JSON of a response exactly when one of its [max_retries] attempts gets status 200 with a body that parses as JSON; a 200 whose [response.json()] raises is caught and retried like a failed request. *)
Theorem nse_make_request_ok_iff (n : nat) :
  snd (make_request answer draw n) = true <-> exists i, (i < n)%nat /\ answer i = Status 200%Z.
Proof. exact (make_request_ok_spec n). Qed.

(** X2: NSE [_make_request] when every attempt gets 403, 429 or 503: it returns [None], and its own sleeps over [n] attempts total between [2n + 10(2^n - 1)] and [4n + 20(2^n - 1)] seconds (the [uniform(2, 4)] pause plus the backoff [2^attempt * uniform(10, 20)]). *)
Theorem nse_make_request_all_blocked (n : nat) :
  (forall j, 0 <= draw j <= 1) ->
  (forall i, (i < n)%nat -> exists c, answer i = Status c /\ is_blocked c = true) ->
  snd (make_request answer draw n) = false /\
  2 * inject_Z (Z.of_nat n) + 10 * (inject_Z (2 ^ Z.of_nat n) - 1)
    <= NseFetch.total_sleep (fst (make_request answer draw n)) <=
  4 * inject_Z (Z.of_nat n) + 20 * (inject_Z (2 ^ Z.of_nat n) - 1).
Proof.
  intros Hd Hb. split.
  - destruct (snd (make_request answer draw n)) eqn:E; [|reflexivity].
    apply make_request_ok_spec in E as [i [Hi Ha]].
    destruct (Hb i Hi) as [c [Hc Hbl]]. rewrite Ha in Hc. injection Hc as <-. discriminate.
  - destruct (blocked_total n Hd n 0 0 ltac:(intros i Hi; apply Hb; lia)) as [H1 H2].
    unfold make_request. simpl in H1, H2. split; assumption.
Qed.

End S.
End T1.

Lemma nse_make_request_all_blocked_witness :
  snd (NseRetry.make_request (fun _ => NseRetry.Status 429%Z) (fun _ => 1 # 2)%Q 3) = false /\
  (2 * inject_Z (Z.of_nat 3) + 10 * (inject_Z (2 ^ Z.of_nat 3) - 1)
    <= NseFetch.total_sleep (fst (NseRetry.make_request (fun _ => NseRetry.Status 429%Z) (fun _ => 1 # 2)%Q 3)) <=
  4 * inject_Z (Z.of_nat 3) + 20 * (inject_Z (2 ^ Z.of_nat 3) - 1))%Q.
Proof.
  apply (T1.nse_make_request_all_blocked (fun _ => NseRetry.Status 429%Z) (fun _ => 1 # 2)%Q 3).
  - intros _. split; vm_compute; discriminate.
  - intros i _. exists 429%Z. split; reflexivity.
Defined.

Module T2.
Import Json NseRetry NseFetch.

Lemma first_ok_none (answer : nat -> outcome) (body : nat -> json) (l : list nat) :
  (forall i, In i l -> answer i <> Status 200%Z) -> first_ok answer body l = None.
Proof.
  induction l as [|a l IH]; intros H; [reflexivity|]. simpl.
  pose proof (H a (or_introl eq_refl)) as Ha.
  destruct (answer a) as [| | |c]; repeat case_match; simplify_eq/=; try (apply IH; intros i Hi; apply H; right; exact Hi).
Qed.

(** X3: [get_corporate_announcements] on a live session: a response that is not a dictionary (a list, [None], a number) makes [response.get] raise [AttributeError]. *)
Theorem gca_non_dict_raises (expired init_ok : bool) (response : option json) :
  (expired = false \/ init_ok = true) -> (forall kv, response <> Some (JObj kv)) ->
  get_corporate_announcements expired init_ok response = Raises PyAttributeError.
Proof.
  intros He Hr. unfold get_corporate_announcements.
  replace (expired && negb init_ok) with false by (destruct He as [-> | ->]; try destruct expired; reflexivity).
  destruct response as [[]|]; try (exfalso; eapply Hr; reflexivity); reflexivity.
Qed.

(** X4: [get_corporate_announcements] on a live session: when no attempt of [_make_request] gets status 200, [response] is [None] and [response.get] raises [AttributeError]; the empty list is never returned. *)
Theorem gca_failed_request_raises (expired init_ok : bool) (answer : nat -> outcome) (body : nat -> json) :
  (expired = false \/ init_ok = true) -> (forall i, (i < 3)%nat -> answer i <> Status 200%Z) ->
  get_corporate_announcements expired init_ok (request_result answer body 3) = Raises PyAttributeError.
Proof.
  intros He Ha. unfold request_result. rewrite first_ok_none.
  - unfold get_corporate_announcements.
    replace (expired && negb init_ok) with false by (destruct He as [-> | ->]; try destruct expired; reflexivity).
    reflexivity.
  - intros i Hi. apply in_seq in Hi. apply Ha. lia.
Qed.

(** X5: [get_corporate_announcements] on a live session raises [TypeError] when the dictionary's ['data'] has no [len] (a number, a boolean). When ['msg'] is not ['no data found'] and the value is truthy, [is_valid_response] raises it in [len(data['data'])]; otherwise [is_valid_response] returns a tuple, which is true, and the [len(...)] of the log line raises it. *)
Theorem gca_data_without_len (expired init_ok : bool) (kv : list (string * json)) (v : json) :
  (expired = false \/ init_ok = true) -> dict_get "data" kv = Some v -> len v = None ->
  get_corporate_announcements expired init_ok (Some (JObj kv)) = Raises PyTypeError.
Proof.
  intros He Hd Hl. unfold get_corporate_announcements, is_valid_response.
  replace (expired && negb init_ok) with false by (destruct He as [-> | ->]; try destruct expired; reflexivity).
  rewrite Hd, Hl. simpl. rewrite Hl. repeat case_match; done.
Qed.

(** X6: Whatever [get_corporate_announcements] returns is either the empty list or the ['data'] value, with a [len], of the dictionary the API answered. *)
Theorem gca_returns (expired init_ok : bool) (response : option json) (v : json) :
  get_corporate_announcements expired init_ok response = Returns v ->
  v = JArr [] \/ exists kv, response = Some (JObj kv) /\ dict_get "data" kv = Some v /\ len v <> None.
Proof.
  unfold get_corporate_announcements, is_valid_response, tuple_truthy.
  destruct (expired && negb init_ok); [intros [= <-]; auto|].
  destruct response as [[]|]; try (intros [= <-]; auto).
  destruct (dict_get "data" kv) as [d|] eqn:Ed; simpl;
    repeat case_match; intros; simplify_eq/=; eauto; right; eexists; split_and!; eauto; congruence.
Qed.

End T2.

Module T3.
Import Json BseFetch.
Local Open Scope Q_scope.

Section S.
Variable ans : nat -> answer.

Lemma bse_attempts_step (a : nat) (rest : list nat) :
  (exists j, ans a = Answer 200%Z (Some j) /\ attempts ans (a :: rest) = ([1 # 2], Some j)) \/
  ((forall j, ans a <> Answer 200%Z (Some j)) /\
   attempts ans (a :: rest) = ((1 # 2) :: inject_Z (2 ^ Z.of_nat a) :: fst (attempts ans rest), snd (attempts ans rest))).
Proof.
  simpl. destruct (ans a) as [|c b] eqn:E.
  - right. split; [congruence|]. destruct (attempts ans rest); reflexivity.
  - repeat case_match; simplify_eq/=;
      first [ left; eexists; split; reflexivity
            | right; split; [congruence | match goal with H : attempts _ _ = _ |- _ => rewrite H end; reflexivity]
            | right; split; [congruence | destruct (attempts ans rest); reflexivity] ].
Qed.

Lemma bse_attempts_seq_some (m : nat) :
  forall s j, snd (attempts ans (seq s m)) = Some j <->
  exists i, (s <= i < s + m)%nat /\ ans i = Answer 200%Z (Some j) /\
    forall i', (s <= i' < i)%nat -> forall j', ans i' <> Answer 200%Z (Some j').
Proof.
  induction m as [|m IH]; intros s j.
  - simpl. split; [discriminate|]. intros [i [Hi _]]. lia.
  - cbn [seq]. destruct (bse_attempts_step s (seq (S s) m)) as [[j0 [Ha E]] | [Hn E]]; rewrite E; simpl.
    + split.
      * intros [= <-]. exists s. split; [lia|]. split; [exact Ha|]. intros i' Hi'. lia.
      * intros [i [Hi [Hai Hfirst]]].
        destruct (decide (i = s)) as [->|Hne]; [congruence|].
        exfalso. apply (Hfirst s ltac:(lia) j0 Ha).
    + rewrite IH. split.
      * intros [i [Hi [Hai Hfirst]]]. exists i. split; [lia|]. split; [exact Hai|].
        intros i' Hi'. destruct (decide (i' = s)) as [->|Hne]; [apply Hn|]. apply Hfirst. lia.
      * intros [i [Hi [Hai Hfirst]]].
        destruct (decide (i = s)) as [->|Hne]; [exfalso; eapply Hn; exact Hai|].
        exists i. split; [lia|]. split; [exact Hai|]. intros i' Hi'. apply Hfirst. lia.
Qed.

Lemma bse_attempts_seq_fail (m : nat) :
  forall s, (forall i, (s <= i < s + m)%nat -> forall j, ans i <> Answer 200%Z (Some j)) ->
  snd (attempts ans (seq s m)) = None /\
  total_sleep (fst (attempts ans (seq s m))) ==
    inject_Z (Z.of_nat m) * (1 # 2) + (inject_Z (2 ^ Z.of_nat (s + m)) - inject_Z (2 ^ Z.of_nat s)).
Proof.
  induction m as [|m IH]; intros s Hn.
  - rewrite Nat.add_0_r. simpl. split; [reflexivity|]. unfold total_sleep. simpl.
    change (inject_Z (Z.of_nat 0)) with 0. ring.
  - cbn [seq]. destruct (IH (S s) ltac:(intros i Hi; apply Hn; lia)) as [Hs Ht].
    destruct (bse_attempts_step s (seq (S s) m)) as [[j0 [Ha E]] | [Hn' E]].
    + exfalso. eapply Hn; [|exact Ha]. lia.
    + rewrite E. simpl. split; [exact Hs|].
      unfold total_sleep in *. simpl. rewrite Ht.
      replace (s + S m)%nat with (S s + m)%nat by lia.
      rewrite !Nat2Z.inj_succ, Z.pow_succ_r by lia. rewrite <- Z.add_1_r, inject_Z_plus, inject_Z_mult.
      change (inject_Z 1) with 1. change (inject_Z 2) with 2. ring.
Qed.


(** X7: BSE [_make_request] returns the JSON of the first attempt that gets status 200, and returns JSON only if some attempt gets 200. *)
Theorem bse_make_request_first_ok (n : nat) (j : json) :
  snd (make_request ans n) = Some j <->
  exists i, (i < n)%nat /\ ans i = Answer 200%Z (Some j) /\
    forall i', (i' < i)%nat -> forall j', ans i' <> Answer 200%Z (Some j').
Proof.
  unfold make_request. rewrite bse_attempts_seq_some. split.
  - intros [i [Hi [Ha Hf]]]. exists i. split; [lia|]. split; [exact Ha|]. intros i' Hi'. apply Hf. lia.
  - intros [i [Hi [Ha Hf]]]. exists i. split; [lia|]. split; [exact Ha|]. intros i' Hi'. apply Hf. lia.
Qed.

(** X8: BSE [_make_request] when no attempt gets status 200: it returns [None] after sleeping [0.5] seconds per attempt plus [2^0 + ... + 2^(n-1)] of backoff. *)
Theorem bse_make_request_all_fail (n : nat) :
  (forall i, (i < n)%nat -> forall j, ans i <> Answer 200%Z (Some j)) ->
  snd (make_request ans n) = None /\
  total_sleep (fst (make_request ans n)) == inject_Z (Z.of_nat n) * (1 # 2) + (inject_Z (2 ^ Z.of_nat n) - 1).
Proof.
  intros Hn. exact (bse_attempts_seq_fail n 0 ltac:(intros i Hi; apply Hn; lia)).
Qed.

End S.
End T3.

Lemma bse_make_request_all_fail_witness :
  snd (BseFetch.make_request (fun _ => BseFetch.ReqRaises) 3) = None /\
  (BseFetch.total_sleep (fst (BseFetch.make_request (fun _ => BseFetch.ReqRaises) 3)) ==
    inject_Z (Z.of_nat 3) * (1 # 2) + (inject_Z (2 ^ Z.of_nat 3) - 1))%Q.
Proof. apply (T3.bse_make_request_all_fail (fun _ => BseFetch.ReqRaises) 3). intros i _ j. discriminate. Defined.

Module T4.
Import Json BseFetch.

Lemma table_of_table (l : list json) :
  l <> [] -> table_of (Some (JObj [("Table", JArr l)])) = Some (Some l).
Proof. destruct l; [congruence|reflexivity]. Qed.

Lemma make_request_first_page (a : nat -> answer) (j : json) :
  a 0%nat = Answer 200%Z (Some j) -> snd (make_request a 3) = Some j.
Proof. intros H. unfold make_request. simpl. rewrite H. reflexivity. Qed.

Lemma make_request_3_fail (a : nat -> answer) :
  (forall t, (t < 3)%nat -> forall j, a t <> Answer 200%Z (Some j)) -> snd (make_request a 3) = None.
Proof. intros H. exact (proj1 (T3.bse_attempts_seq_fail a 3 0 ltac:(intros i Hi; apply H; lia))). Qed.

Section S.
Variable page_answer : nat -> nat -> answer.
Variable pages : nat -> list json.

Lemma fetch_pages_stops (k : nat) :
  forall p acc fuel,
  (forall i, (p <= i < p + k)%nat ->
     page_answer i 0%nat = Answer 200%Z (Some (JObj [("Table", JArr (pages i))])) /\ pages i <> []) ->
  (forall t, (t < 3)%nat -> forall j, page_answer (p + k)%nat t <> Answer 200%Z (Some j)) ->
  (k < fuel)%nat ->
  fetch_pages page_answer fuel p acc = Returns (acc ++ List.concat (map pages (seq p k)))%list.
Proof.
  induction k as [|k IH]; intros p acc fuel Hp Hf Hk; (destruct fuel as [|f]; [lia|]); simpl.
  - rewrite Nat.add_0_r in Hf. rewrite make_request_3_fail by exact Hf. simpl. by rewrite app_nil_r.
  - destruct (Hp p ltac:(lia)) as [Ha Hne].
    rewrite (make_request_first_page _ _ Ha), (table_of_table _ Hne).
    rewrite IH; [by rewrite app_assoc | intros i Hi; apply Hp; lia | | lia].
    replace (S p + k)%nat with (p + S k)%nat by lia. exact Hf.
Qed.

(** X9: [_fetch_date_chunk]: when pages [1..k] answer non-empty tables and every attempt for page [k+1] fails, the chunk ends and returns the concatenation of the first [k] pages, silently dropping the rest. *)
Theorem fetch_date_chunk_failed_page_ends (k fuel : nat) :
  (forall i, (1 <= i <= k)%nat ->
     page_answer i 0%nat = Answer 200%Z (Some (JObj [("Table", JArr (pages i))])) /\ pages i <> []) ->
  (forall t, (t < 3)%nat -> forall j, page_answer (S k) t <> Answer 200%Z (Some j)) ->
  (k < fuel)%nat ->
  fetch_date_chunk page_answer fuel = Returns (List.concat (map pages (seq 1 k))).
Proof.
  intros Hp Hf Hk. unfold fetch_date_chunk.
  apply (fetch_pages_stops k 1 [] fuel); [intros i Hi; apply Hp; lia | exact Hf | exact Hk].
Qed.

(** X10: [_fetch_date_chunk] never ends when every page answers a non-empty table: the [while True] loop has no bound of its own. *)
Theorem fetch_date_chunk_never_ends :
  (forall i, page_answer i 0%nat = Answer 200%Z (Some (JObj [("Table", JArr (pages i))])) /\ pages i <> []) ->
  forall fuel, fetch_date_chunk page_answer fuel = OutOfFuel.
Proof.
  intros Hp fuel. unfold fetch_date_chunk. generalize 1%nat (@nil json).
  induction fuel as [|f IH]; intros p acc; [reflexivity|]. simpl.
  destruct (Hp p) as [Ha Hne].
  rewrite (make_request_first_page _ _ Ha), (table_of_table _ Hne). apply IH.
Qed.

End S.
End T4.

Lemma fetch_date_chunk_failed_page_ends_witness :
  BseFetch.fetch_date_chunk
    (fun i t => if (i <=? 2)%nat then BseFetch.Answer 200%Z (Some (Json.JObj [("Table", Json.JArr [Json.JNum (Z.of_nat i)])]))
                else BseFetch.ReqRaises) 5 =
  Json.Returns (List.concat (map (fun i => [Json.JNum (Z.of_nat i)]) (seq 1 2))).
Proof.
  apply (T4.fetch_date_chunk_failed_page_ends _ (fun i => [Json.JNum (Z.of_nat i)]) 2 5).
  - intros i Hi. split; [|discriminate].
    destruct i as [|[|[|i]]]; simpl; try reflexivity; lia.
  - intros t _ j. discriminate.
  - lia.
Defined.

Lemma fetch_date_chunk_never_ends_witness :
  BseFetch.fetch_date_chunk (fun _ _ => BseFetch.Answer 200%Z (Some (Json.JObj [("Table", Json.JArr [Json.JNull])]))) 10 =
  Json.OutOfFuel.
Proof.
  apply (T4.fetch_date_chunk_never_ends _ (fun _ => [Json.JNull])). intros i. split; [reflexivity | discriminate].
Defined.

Module T5.
Import Json BseChunk BseFetch.
Local Open Scope Z_scope.


Section S.
Variable chunk_answer : Z -> Z -> nat -> nat -> answer.
Variable fuel : nat.



End S.
End T5.


Module T6.
Import Text DateTime Storage.

Lemma download_attempts_cons (web : net) (url path : string) (n a : nat) (rest : list nat) (st : store) :
  download_attempts web url path n (a :: rest) st =
  let last := negb (a <? n - 1)%nat in
  let rec_ st := download_attempts web url path n rest st in
  match web url with
  | Resp c content =>
      if Z.eqb c 200 then
        if negb (prefixb (chars "%PDF") content) && negb last then rec_ st
        else (Some path, mk_store (session_initialized st) ({[path]} ∪ objects st))
      else if Z.eqb c 403 then (if last then rec_ st else rec_ (mk_store false (objects st)))
      else if Z.eqb c 404 then (Some "PDF Moved", st)
      else rec_ st
  | _ => rec_ st
  end.
Proof.
  simpl. destruct (web url) as [c content| |]; [|reflexivity|reflexivity].
  destruct c as [|p|p]; try reflexivity.
  do 9 (try (destruct p as [p|p|]; try reflexivity)).
Qed.
Lemma download_attempts_store (web : net) (url path : string) (n : nat) (l : list nat) :
  forall st,
  let '(r, st') := download_attempts web url path n l st in
  objects st ⊆ objects st' /\ objects st' ⊆ {[path]} ∪ objects st /\
  (r = None \/ r = Some "PDF Moved" \/ (r = Some path /\ path ∈ objects st')).
Proof.
  induction l as [|a rest IH]; intros st.
  - simpl. split_and!; [done | set_solver | auto].
  - rewrite download_attempts_cons. cbv zeta.
    assert (Hrec : forall st1, objects st1 = objects st ->
      let '(r, st') := download_attempts web url path n rest st1 in
      objects st ⊆ objects st' /\ objects st' ⊆ {[path]} ∪ objects st /\
      (r = None \/ r = Some "PDF Moved" \/ (r = Some path /\ path ∈ objects st'))).
    { intros st1 E. pose proof (IH st1) as H. destruct (download_attempts _ _ _ _ rest st1). by rewrite <- E. }
    destruct (web url) as [c content| |]; [|exact (Hrec st eq_refl)|exact (Hrec st eq_refl)].
    destruct (Z.eqb c 200); [destruct (_ && _); [exact (Hrec st eq_refl)|]|].
    + simpl. split_and!; [set_solver | set_solver | right; right; split; [done | set_solver]].
    + destruct (Z.eqb c 403); [destruct (negb _); first [exact (Hrec st eq_refl) | exact (Hrec (mk_store false (objects st)) eq_refl)]|].
      destruct (Z.eqb c 404); [split_and!; [done | set_solver | auto] | exact (Hrec st eq_refl)].
Qed.

Lemma download_store_inv (web : net) (now : datetime) (url sym fd conf : string)
    (n : nat) (st : store) :
  let path := generate_pdf_path now sym fd conf in
  let '(r, st') := download_and_store_pdf web now url sym fd conf n st in
  objects st ⊆ objects st' /\ objects st' ⊆ {[path]} ∪ objects st /\
  (r = None \/ r = Some "PDF Moved" \/ (r = Some path /\ path ∈ objects st')).
Proof.
  unfold download_and_store_pdf. simpl.
  assert (Hi : objects (snd (initialize_bse_session web st)) = objects st).
  { unfold initialize_bse_session. repeat case_match; reflexivity. }
  destruct (initialize_bse_session web st) as [ok st1]. simpl in Hi.
  destruct ok; simpl; [|split_and!; [by rewrite Hi | set_solver | auto]].
  case_bool_decide as Hin.
  - rewrite Hi in Hin |- *. split_and!; [done | set_solver | right; right; auto].
  - pose proof (download_attempts_store web url (generate_pdf_path now sym fd conf) n (seq 0 n) st1) as H.
    destruct (download_attempts _ _ _ _ _ st1). rewrite Hi in H. exact H.
Qed.

(** X12: [download_and_store_pdf] never removes an object from the bucket and adds at most the object at [generate_pdf_path]; it returns [None], ['PDF Moved'] or that path, which is then in the bucket. *)
Theorem download_and_store_pdf_store (web : net) (now : datetime) (url sym fd conf : string)
    (n : nat) (st : store) :
  let path := generate_pdf_path now sym fd conf in
  let '(r, st') := download_and_store_pdf web now url sym fd conf n st in
  objects st ⊆ objects st' /\ objects st' ⊆ {[path]} ∪ objects st /\
  (r = None \/ r = Some "PDF Moved" \/ (r = Some path /\ path ∈ objects st')).
Proof. exact (download_store_inv web now url sym fd conf n st). Qed.

Lemma download_attempts_200 (web : net) (url path : string) (n : nat) (content : list ascii) :
  web url = Resp 200 content ->
  forall m s st, (s + m = n)%nat -> (1 <= m)%nat ->
  download_attempts web url path n (seq s m) st =
    (Some path, mk_store (session_initialized st) ({[path]} ∪ objects st)).
Proof.
  intros Hw. induction m as [|m IH]; intros s st Hs Hm; [lia|].
  cbn [seq]. rewrite download_attempts_cons. cbv zeta. rewrite Hw. simpl Z.eqb. cbv iota.
  destruct (prefixb (chars "%PDF") content); simpl; [reflexivity|].
  destruct (Nat.ltb_spec s (n - 1)); simpl; [|reflexivity].
  apply IH; lia.
Qed.

(** X13: [download_and_store_pdf] stores any body answered with status 200, even one not starting with [%PDF]: the [%PDF] check only retries, and the last attempt stores whatever it got. *)
Theorem download_stores_any_200_body (web : net) (now : datetime) (url sym fd conf : string)
    (n : nat) (st : store) (content : list ascii) :
  (1 <= n)%nat -> web url = Resp 200 content -> fst (initialize_bse_session web st) = true ->
  generate_pdf_path now sym fd conf ∉ objects st ->
  download_and_store_pdf web now url sym fd conf n st =
    (Some (generate_pdf_path now sym fd conf),
     mk_store true ({[generate_pdf_path now sym fd conf]} ∪ objects st)).
Proof.
  intros Hn Hw Hok Hnot. unfold download_and_store_pdf.
  assert (Hi : objects (snd (initialize_bse_session web st)) = objects st /\
               session_initialized (snd (initialize_bse_session web st)) = true).
  { revert Hok. unfold initialize_bse_session. destruct (session_initialized st) eqn:E; [simpl; auto|].
    repeat case_match; simpl; intros; try discriminate; auto. }
  destruct (initialize_bse_session web st) as [ok st1]. simpl in Hok, Hi. subst ok. simpl.
  destruct Hi as [Ho Hs].
  rewrite bool_decide_false by (rewrite Ho; exact Hnot).
  rewrite (download_attempts_200 web url _ n content Hw n 0 st1) by lia.
  by rewrite Ho, Hs.
Qed.

End T6.

Lemma download_stores_any_200_body_witness :
  Storage.download_and_store_pdf (fun _ => Storage.Resp 200 (Text.chars "<html>")) Props.sample_now
    "https://www.bseindia.com/xml-data/corpfiling/AttachLive/a.pdf" "500325" "2025-06-30T10:00:00" "HIGH" 3
    (Storage.mk_store true ∅) =
    (Some (Storage.generate_pdf_path Props.sample_now "500325" "2025-06-30T10:00:00" "HIGH"),
     Storage.mk_store true ({[Storage.generate_pdf_path Props.sample_now "500325" "2025-06-30T10:00:00" "HIGH"]} ∪ ∅)).
Proof.
  apply (T6.download_stores_any_200_body (fun _ => Storage.Resp 200 (Text.chars "<html>")) Props.sample_now
    "https://www.bseindia.com/xml-data/corpfiling/AttachLive/a.pdf" "500325" "2025-06-30T10:00:00" "HIGH" 3
    (Storage.mk_store true ∅) (Text.chars "<html>")).
  - lia.
  - reflexivity.
  - reflexivity.
  - set_solver.
Defined.

Module T7.
Import RateLimit.
Local Open Scope Q_scope.

(** X14: [_rate_limit] sleeps a non-negative time, and once the clock has advanced by that sleep, consecutive requests are at least [min_request_interval] apart. *)
Theorem rate_limit_spacing (last cur after : Q) :
  cur + fst (rate_limit last cur after) <= after ->
  0 <= fst (rate_limit last cur after) /\ last + min_request_interval <= snd (rate_limit last cur after).
Proof.
  unfold rate_limit, min_request_interval. destruct (Qlt_le_dec (cur - last) 1); simpl; intros; split; lra.
Qed.

End T7.

Lemma rate_limit_spacing_witness :
  (0 <= fst (RateLimit.rate_limit 0 (1 # 2) 1) /\
   0 + RateLimit.min_request_interval <= snd (RateLimit.rate_limit 0 (1 # 2) 1))%Q.
Proof. apply (T7.rate_limit_spacing 0 (1 # 2) 1). vm_compute. discriminate. Defined.

Module T8.
Import Text DateTime Storage.
Local Open Scope Z_scope.

Lemma bind_some {A B} (f : A -> option B) (o : option A) (b : B) :
  mbind f o = Some b -> exists a, o = Some a /\ f a = Some b.
Proof. destruct o as [a|]; simpl; [eauto | discriminate]. Qed.

Lemma make_valid (y mo d h mi s us : Z) (dt : datetime) :
  make y mo d h mi s us = Some dt ->
  valid_fields (dt_year dt) (dt_month dt) (dt_day dt) (dt_hour dt) (dt_minute dt) (dt_second dt) (dt_micro dt) = true.
Proof. unfold make. destruct (valid_fields _ _ _ _ _ _ _) eqn:E; [intros [= <-]; exact E | discriminate]. Qed.

Lemma fromisoformat_chars_valid (l : list ascii) (dt : datetime) :
  fromisoformat_chars l = Some dt ->
  valid_fields (dt_year dt) (dt_month dt) (dt_day dt) (dt_hour dt) (dt_minute dt) (dt_second dt) (dt_micro dt) = true.
Proof.
  unfold fromisoformat_chars. intros H.
  apply bind_some in H as [[[y mo] d] [_ H]]. cbv beta iota in H.
  apply bind_some in H as [[[[[h mi] sec] us] tz] [_ H]]. cbv beta iota in H.
  destruct (tz_ok tz); [eapply make_valid; exact H | discriminate].
Qed.

Lemma chars_app (a b : string) : chars (a ++ b) = (chars a ++ chars b)%list.
Proof. induction a as [|c a IH]; simpl; [reflexivity | unfold chars in *; simpl; by rewrite IH]. Qed.

Lemma pad_digits_length (w : nat) : forall z, List.length (pad_digits w z) = w.
Proof. induction w as [|w IH]; intros z; simpl; [done|]. rewrite length_app, IH. simpl. lia. Qed.

Lemma pad_digits_inj (w : nat) :
  forall z1 z2, 0 <= z1 < 10 ^ Z.of_nat w -> 0 <= z2 < 10 ^ Z.of_nat w ->
  pad_digits w z1 = pad_digits w z2 -> z1 = z2.
Proof.
  induction w as [|w IH]; intros z1 z2 H1 H2 E.
  - simpl in *. lia.
  - simpl in E. apply app_inj_tail in E as [E Ec].
    rewrite Nat2Z.inj_succ, Z.pow_succ_r in H1, H2 by lia.
    pose proof (Z.mod_pos_bound z1 10) as M1. pose proof (Z.mod_pos_bound z2 10) as M2.
    assert (Hq : z1 / 10 = z2 / 10).
    { apply IH; [split; [apply Z.div_pos; lia | apply Z.div_lt_upper_bound; lia]
               | split; [apply Z.div_pos; lia | apply Z.div_lt_upper_bound; lia] | exact E]. }
    assert (Hr : z1 mod 10 = z2 mod 10).
    { apply (f_equal nat_of_ascii) in Ec. rewrite !nat_ascii_embedding in Ec by lia. lia. }
    rewrite (Z.div_mod z1 10), (Z.div_mod z2 10) by lia. lia.
Qed.

Lemma days_in_month_le (y m : Z) : days_in_month y m <= 31.
Proof. unfold days_in_month. repeat case_match; lia. Qed.

Lemma fromisoformat_bounds (s : string) (dt : datetime) :
  fromisoformat s = Some dt ->
  0 <= dt_year dt < 10 ^ 4 /\ 0 <= dt_month dt < 10 ^ 2 /\ 0 <= dt_day dt < 10 ^ 2 /\
  0 <= dt_hour dt < 10 ^ 2 /\ 0 <= dt_minute dt < 10 ^ 2 /\ 0 <= dt_second dt < 10 ^ 2.
Proof.
  intros H. apply fromisoformat_chars_valid in H. unfold valid_fields in H.
  repeat rewrite andb_true_iff in H. rewrite ?Z.leb_le, ?Z.ltb_lt in H.
  pose proof (days_in_month_le (dt_year dt) (dt_month dt)). simpl. lia.
Qed.

Ltac peel H :=
  repeat first
    [ apply app_inv_head in H
    | apply app_inj_1 in H as [?E H]; [| rewrite !pad_digits_length; reflexivity] ].

(** X15: [generate_pdf_path] gives the same object name to two filing dates exactly when they agree to the second: the microseconds and the UTC offset are dropped, so two filings in one second overwrite each other. *)
Theorem generate_pdf_path_same_second (now : datetime) (sym conf f1 f2 : string) (d1 d2 : datetime) :
  fromisoformat (replace_char "Z" "+00:00" f1) = Some d1 ->
  fromisoformat (replace_char "Z" "+00:00" f2) = Some d2 ->
  generate_pdf_path now sym f1 conf = generate_pdf_path now sym f2 conf <->
  (dt_year d1, dt_month d1, dt_day d1, dt_hour d1, dt_minute d1, dt_second d1) =
  (dt_year d2, dt_month d2, dt_day d2, dt_hour d2, dt_minute d2, dt_second d2).
Proof.
  intros H1 H2. unfold generate_pdf_path. rewrite H1, H2. cbv zeta. split.
  - intros E. apply (f_equal chars) in E. unfold pad in E.
    pose proof (fromisoformat_bounds _ _ H1) as B1. pose proof (fromisoformat_bounds _ _ H2) as B2.
    destruct (String.eqb conf "HIGH"), (String.eqb conf "MEDIUM");
      rewrite !chars_app in E; unfold of_chars, chars in E; rewrite !list_ascii_of_string_of_list_ascii in E;
      rewrite <- !app_assoc in E; peel E.
    all: destruct B1 as (?&?&?&?&?&?), B2 as (?&?&?&?&?&?).
    all: assert (dt_year d1 = dt_year d2) by (apply (pad_digits_inj 4); [simpl; lia.. | assumption]).
    all: assert (dt_month d1 = dt_month d2) by (apply (pad_digits_inj 2); [simpl; lia.. | assumption]).
    all: assert (dt_day d1 = dt_day d2) by (apply (pad_digits_inj 2); [simpl; lia.. | assumption]).
    all: assert (dt_hour d1 = dt_hour d2) by (apply (pad_digits_inj 2); [simpl; lia.. | assumption]).
    all: assert (dt_minute d1 = dt_minute d2) by (apply (pad_digits_inj 2); [simpl; lia.. | assumption]).
    all: assert (dt_second d1 = dt_second d2) by (apply (pad_digits_inj 2); [simpl; lia.. | assumption]).
    all: congruence.
  - intros E. injection E as Ey Emo Ed Eh Emi Es. by rewrite Ey, Emo, Ed, Eh, Emi, Es.
Qed.

End T8.

Lemma generate_pdf_path_same_second_witness :
  Storage.generate_pdf_path Props.sample_now "500325" "2025-06-30T10:00:00.43+05:30" "HIGH" =
  Storage.generate_pdf_path Props.sample_now "500325" "2025-06-30 10:00Z" "HIGH" <->
  (DateTime.dt_year (DateTime.mkdt 2025 6 30 10 0 0 430000), DateTime.dt_month (DateTime.mkdt 2025 6 30 10 0 0 430000),
   DateTime.dt_day (DateTime.mkdt 2025 6 30 10 0 0 430000), DateTime.dt_hour (DateTime.mkdt 2025 6 30 10 0 0 430000),
   DateTime.dt_minute (DateTime.mkdt 2025 6 30 10 0 0 430000), DateTime.dt_second (DateTime.mkdt 2025 6 30 10 0 0 430000)) =
  (DateTime.dt_year (DateTime.mkdt 2025 6 30 10 0 0 0), DateTime.dt_month (DateTime.mkdt 2025 6 30 10 0 0 0),
   DateTime.dt_day (DateTime.mkdt 2025 6 30 10 0 0 0), DateTime.dt_hour (DateTime.mkdt 2025 6 30 10 0 0 0),
   DateTime.dt_minute (DateTime.mkdt 2025 6 30 10 0 0 0), DateTime.dt_second (DateTime.mkdt 2025 6 30 10 0 0 0)).
Proof. apply T8.generate_pdf_path_same_second; vm_compute; reflexivity. Defined.

Module T9.
Import Text Re ReLang Classifier.

Lemma mtch_sound (r : rx) :
  forall s cap k x, mtch r s cap k = Some x ->
  exists pre s' cap', s = (pre ++ s')%list /\ in_lang r pre /\ cap_rel r cap cap' /\ k s' cap' = Some x.
Proof.
  induction r as [p|r1 IH1 r2 IH2|p|r1 IH|]; intros s cap k x H; simpl in H.
  - destruct s as [|c t]; [discriminate|]. destruct (p c) eqn:Ep; [|discriminate].
    exists [c], t, cap. simpl. split_and!; eauto.
  - destruct (IH1 _ _ _ _ H) as (pre1 & s1 & c1 & -> & L1 & C1 & H1).
    destruct (IH2 _ _ _ _ H1) as (pre2 & s2 & c2 & -> & L2 & C2 & H2).
    exists (pre1 ++ pre2)%list, s2, c2. split_and!; [by rewrite app_assoc | simpl; eauto | simpl; eauto | exact H2].
  - revert H. induction s as [|c t IHs]; intros H.
    + destruct (k [] cap) eqn:E; [|discriminate]. injection H as <-.
      exists [], [], cap. simpl. auto.
    + destruct (k (c :: t) cap) eqn:E.
      * injection H as <-. exists [], (c :: t), cap. simpl. auto.
      * destruct (p c) eqn:Ep; [|discriminate].
        destruct (IHs H) as (pre & s' & cap' & -> & L & C & Hk).
        exists (c :: pre), s', cap'. simpl. split_and!; auto.
  - destruct (IH _ _ _ _ H) as (pre & s' & c1 & -> & L & C & Hk).
    exists pre, s', (Some pre). split_and!; [done | exact L | simpl; eauto |].
    rewrite length_app, Nat.add_sub, take_app_length in Hk. exact Hk.
  - exists [], s, cap. simpl. auto.
Qed.

Lemma search_chars_cap (r : rx) (s : list ascii) (x : option (list ascii)) :
  search_chars r s = Some x -> cap_rel r None x.
Proof.
  induction s as [|c t IH]; simpl; intros H;
    (destruct (mtch r _ None (fun _ c => Some c)) as [y|] eqn:E;
     [injection H as <-; destruct (mtch_sound _ _ _ _ _ E) as (? & ? & ? & _ & _ & C & [= ->]); exact C|]).
  - discriminate.
  - exact (IH H).
Qed.

Lemma digit14_chars (g : list ascii) :
  in_lang digit14 g -> g = ["1"%char] \/ g = ["2"%char] \/ g = ["3"%char] \/ g = ["4"%char].
Proof.
  intros (c & -> & Hc). apply andb_true_iff in Hc as [H1 H2].
  apply Nat.leb_le in H1, H2.
  rewrite <- (ascii_nat_embedding c).
  assert (nat_of_ascii c = 49 \/ nat_of_ascii c = 50 \/ nat_of_ascii c = 51 \/ nat_of_ascii c = 52)%nat
    as [-> | [-> | [-> | ->]]] by lia; auto.
Qed.

Lemma cap_rel_seq_r (a b : rx) (c x : option (list ascii)) :
  cap_rel (RSeq a b) c x -> exists c1, cap_rel b c1 x.
Proof. intros (c1 & _ & H). eauto. Qed.

Lemma cap_rel_grp_end (r : rx) (c x : option (list ascii)) :
  cap_rel (RSeq (RGrp r) REps) c x -> exists g, x = Some g /\ in_lang r g.
Proof. intros (c1 & (g & -> & L) & ->). eauto. Qed.

Ltac group_of E :=
  repeat (apply cap_rel_grp_end in E || (apply cap_rel_seq_r in E; destruct E as [? E])).

(** X16: [_extract_quarter] only ever returns one of Q1, Q2, Q3 or Q4. *)
Theorem extract_quarter_range (text q : string) :
  extract_quarter text = Some q -> In q ["Q1"; "Q2"; "Q3"; "Q4"].
Proof.
  unfold extract_quarter, quarter_patterns. simpl extract_quarter_from.
  repeat match goal with
         | |- match search ?r text with _ => _ end = _ -> _ =>
             let E := fresh "E" in destruct (search r text) eqn:E
         end; intros H; simplify_eq/=; try (simpl; tauto).
  all: match goal with E : search _ _ = Some _ |- _ => apply search_chars_cap in E; group_of E end.
  all: match goal with E : exists g, _ = Some g /\ _ |- _ => destruct E as (g & -> & L) end; apply digit14_chars in L; destruct L as [->|[->|[->| ->]]]; simpl; tauto.
Qed.

Lemma rep_digit_lang (n : nat) :
  forall g, in_lang (rep n digit) g -> List.length g = n /\ Forall (fun c => is_digit c = true) g.
Proof.
  induction n as [|n IH]; intros g H; simpl in H.
  - subst g. auto.
  - destruct H as (w1 & w2 & -> & (c & -> & Hc) & H2). destruct (IH _ H2) as [Hl Hf].
    simpl. auto.
Qed.

Lemma lower_char_dot (c : ascii) : lower_char c = "."%char -> c = "."%char.
Proof.
  unfold lower_char. destruct (_ && _) eqn:E; [|done].
  apply andb_true_iff in E as [E1 E2]. apply Nat.leb_le in E1, E2. intros H.
  apply (f_equal nat_of_ascii) in H. rewrite nat_ascii_embedding in H by lia. change (nat_of_ascii "."%char) with 46%nat in H. lia.
Qed.

Lemma lit_dot_lang (g : list ascii) : in_lang (lit ".") g -> g = ["."%char].
Proof.
  intros (w1 & w2 & -> & (c & -> & Hc) & ->). apply Ascii.eqb_eq in Hc.
  symmetry in Hc. apply lower_char_dot in Hc. by subst c.
Qed.

Lemma dmy_lang (g : list ascii) :
  in_lang dmy g ->
  exists dd mm yyyy, g = (dd ++ "."%char :: mm ++ "."%char :: yyyy)%list /\
    List.length dd = 2%nat /\ List.length mm = 2%nat /\ List.length yyyy = 4%nat /\
    Forall (fun c => is_digit c = true) (dd ++ mm ++ yyyy)%list.
Proof.
  intros (d & w1 & -> & Hd & (p1 & w2 & -> & Hp1 & (m & w3 & -> & Hm & (p2 & w4 & -> & Hp2 & (y & w5 & -> & Hy & ->))))).
  apply rep_digit_lang in Hd as [Ld Fd], Hm as [Lm Fm], Hy as [Ly Fy].
  apply lit_dot_lang in Hp1, Hp2. subst p1 p2.
  exists d, m, y. rewrite !app_nil_r. split_and!; auto.
  rewrite !Forall_app. auto.
Qed.

Lemma group1_chars (g : option (list ascii)) (p : string) :
  group1 g = Some p -> exists l, g = Some l /\ chars p = l.
Proof.
  destruct g as [l|]; simpl; [intros [= <-] | discriminate].
  exists l. split; [done|]. apply list_ascii_of_string_of_list_ascii.
Qed.

(** X17: [_extract_financial_year] only ever returns a string of exactly four digits. *)
Theorem extract_financial_year_digits (text y : string) :
  extract_financial_year text = Some y ->
  List.length (chars y) = 4%nat /\ Forall (fun c => is_digit c = true) (chars y).
Proof.
  unfold extract_financial_year. simpl seqs.
  destruct (search _ text) as [g|] eqn:E; [|discriminate]. intros H.
  apply group1_chars in H as (l & -> & ->).
  apply search_chars_cap in E. group_of E. destruct E as (g & [= ->] & L).
  exact (rep_digit_lang 4 _ L).
Qed.

(** X18: [_extract_period] returns either a date of the shape dd.mm.yyyy or a four-digit year. *)
Theorem extract_period_shape (text p : string) :
  extract_period text = Some p ->
  (exists dd mm yyyy, chars p = (dd ++ "."%char :: mm ++ "."%char :: yyyy)%list /\
     List.length dd = 2%nat /\ List.length mm = 2%nat /\ List.length yyyy = 4%nat /\
     Forall (fun c => is_digit c = true) (dd ++ mm ++ yyyy)%list) \/
  (List.length (chars p) = 4%nat /\ Forall (fun c => is_digit c = true) (chars p)).
Proof.
  unfold extract_period, period_patterns. simpl first_group.
  repeat match goal with
         | |- match search ?r text with _ => _ end = _ -> _ =>
             let E := fresh "E" in destruct (search r text) eqn:E
         end; intros H; try discriminate.
  all: apply group1_chars in H as (l & -> & ->).
  all: match goal with E : search _ _ = Some _ |- _ => apply search_chars_cap in E; group_of E;
         destruct E as (g & [= ->] & L) end.
  all: first [left; exact (dmy_lang _ L) | right; exact (rep_digit_lang 4 _ L)].
Qed.

End T9.

Module T10.
Import Text DateTime.
Local Open Scope Z_scope.

Lemma digits_acc_app (n : nat) :
  forall acc l t v r, digits_acc n acc l = Some (v, r) -> digits_acc n acc (l ++ t)%list = Some (v, r ++ t)%list.
Proof.
  induction n as [|n IH]; simpl; intros acc l t v r H; [by injection H as <- <-|].
  destruct l as [|c l]; [discriminate|]. simpl.
  destruct (digit_val c); simpl in *; [exact (IH _ _ _ _ _ H) | discriminate].
Qed.

Lemma expect_app (c : ascii) (l t r : list ascii) :
  expect c l = Some r -> expect c (l ++ t)%list = Some (r ++ t)%list.
Proof. destruct l as [|d l]; simpl; [discriminate|]. destruct (Ascii.eqb c d); congruence. Qed.

Lemma iso_base_app (l t rest : list ascii) (y mo d h mi s : Z) :
  iso_base l = Some (y, mo, d, h, mi, s, rest) -> iso_base (l ++ t)%list = Some (y, mo, d, h, mi, s, rest ++ t)%list.
Proof.
  unfold iso_base, digits. intros H.
  repeat match type of H with
  | mbind _ (digits_acc ?n ?a ?l) = _ =>
      let E := fresh "E" in
      destruct (digits_acc n a l) as [[? ?]|] eqn:E; [|discriminate]; cbn [mbind option_bind] in H;
      rewrite (digits_acc_app _ _ _ t _ _ E); cbn [mbind option_bind]
  | mbind _ (expect ?c ?l) = _ =>
      let E := fresh "E" in
      destruct (expect c l) as [?|] eqn:E; [|discriminate]; cbn [mbind option_bind] in H;
      rewrite (expect_app _ _ t _ E); cbn [mbind option_bind]
  end.
  by injection H as <- <- <- <- <- <- <-.
Qed.

(** X19: [parse_iso_datetime] reads only the YYYY-MM-DDTHH:MM:SS prefix when no fraction follows: a UTC offset or any other suffix is ignored. *)
Theorem parse_iso_datetime_ignores_suffix (f : string -> option datetime) (s t : string)
    (y mo d h mi sec : Z) :
  iso_base (chars s) = Some (y, mo, d, h, mi, sec, []) ->
  head (chars t) <> Some "."%char ->
  parse_iso_datetime f (s ++ t) = parse_iso_datetime f s.
Proof.
  intros H Ht. unfold parse_iso_datetime.
  rewrite T8.chars_app, (iso_base_app _ _ _ _ _ _ _ _ _ H), H. simpl app.
  destruct (chars t) as [|c r]; [reflexivity|].
  destruct c as [[] [] [] [] [] [] [] []]; try reflexivity. simpl in Ht. congruence.
Qed.

End T10.

Lemma parse_iso_datetime_ignores_suffix_witness :
  DateTime.parse_iso_datetime (fun _ => None) ("2025-06-30T10:00:00" ++ "+05:30") =
  DateTime.parse_iso_datetime (fun _ => None) "2025-06-30T10:00:00".
Proof.
  apply (T10.parse_iso_datetime_ignores_suffix _ _ _ 2025 6 30 10 0 0); [reflexivity | discriminate].
Defined.

Module T11.
Import Text DateTime Classifier Db Storage Processor.

Section S.
Variables (f : string -> option datetime) (web : net) (now : datetime).

Lemma download_grows (url sym fd conf : string) (n : nat) (st : store) :
  objects st ⊆ objects (snd (download_and_store_pdf web now url sym fd conf n st)).
Proof.
  pose proof (T6.download_store_inv web now url sym fd conf n st) as H. simpl in H.
  destruct (download_and_store_pdf _ _ _ _ _ _ _ _). exact (proj1 H).
Qed.

Lemma process_one_state (a : announcement) (st : pstate) :
  dom (st_anns (snd (process_one f web now a st))) = dom (st_anns st) /\
  objects (st_store st) ⊆ objects (st_store (snd (process_one f web now a st))).
Proof.
  unfold process_one. cbv zeta.
  destruct (is_financial_announcement _ _); [|done].
  destruct (parse_iso_datetime _ _) as [dt|]; [|done].
  destruct (String.eqb _ ""); [done|].
  pose proof (download_grows (bse_attachment_live ++ "/" ++ get_or (ATTACHMENTNAME a) "")
                (get_or (SCRIP_CD a) "") (get_or (NEWS_DT a) "") "HIGH" 3 (st_store st)) as G1.
  destruct (download_and_store_pdf _ _ _ _ _ _ _ _) as [mp st1]. simpl in G1.
  destruct mp as [p|]; [|done].
  destruct (String.eqb (lower p) "pdf moved").
  - pose proof (download_grows (bse_attachment_moved ++ "/" ++ slice (get_or (NEWS_DT a) "") 0 4 ++ "/"
                  ++ slice (get_or (NEWS_DT a) "") 5 7 ++ "/" ++ get_or (ATTACHMENTNAME a) "")
                  (get_or (SCRIP_CD a) "") (get_or (NEWS_DT a) "") "HIGH" 3 st1) as G2.
    destruct (download_and_store_pdf _ _ _ _ _ _ _ st1) as [mp2 st2]. simpl in *.
    unfold updated_pdf_status. rewrite dom_alter_L. split; [done | set_solver].
  - simpl. unfold updated_pdf_status. rewrite dom_alter_L. done.
Qed.


Lemma process_one_ok (a : announcement) (st st' : pstate) (o : option processed) :
  process_one f web now a st = (Ok o, st') ->
  match o with
  | None => is_financial_announcement (strip (get_or (CATEGORYNAME a) "")) (lower (get_or (NEWSSUB a) "")) = false
  | Some p =>
      is_financial_announcement (strip (get_or (CATEGORYNAME a) "")) (lower (get_or (NEWSSUB a) "")) = true /\
      pd_symbol p = get_or (SCRIP_CD a) "" /\ pd_subject p = get_or (NEWSSUB a) "" /\
      pd_category p = strip (get_or (CATEGORYNAME a) "") /\
      pd_attachment_name p = get_or (ATTACHMENTNAME a) "" /\
      parse_iso_datetime f (get_or (NEWS_DT a) "") = Some (pd_date p) /\
      pd_confidence p = determine_confidence (pd_category p) (lower (pd_subject p)) /\
      pd_pdf_url p = (if String.eqb (pd_attachment_name p) "" then None
                      else Some (bse_attachment_live ++ "/" ++ pd_attachment_name p)) /\
      pd_pdf_stored p = option_map truthy (pd_minio_path p) /\
      (pd_minio_path p = None <-> pd_attachment_name p = "") /\
      pd_processing_status p = (if String.eqb (pd_attachment_name p) "" then "pending"
                                else match pd_extracted_data p with Some _ => "success" | None => "no_data_found" end)
  end.
Proof.
  unfold process_one. cbv zeta.
  destruct (is_financial_announcement _ _) eqn:Hf; [|intros [= <- _]; reflexivity].
  destruct (parse_iso_datetime _ _) as [dt|] eqn:Hdt; [|discriminate].
  destruct (String.eqb (get_or (ATTACHMENTNAME a) "") "") eqn:Ha.
  - intros [= <- _]. simpl. rewrite Ha. apply String.eqb_eq in Ha. split_and!; auto; done.
  - destruct (download_and_store_pdf _ _ _ _ _ _ _ _) as [mp st1].
    destruct mp as [p|]; [|discriminate].
    destruct (if String.eqb (lower p) "pdf moved" then _ else _) as [mp2 st2].
    intros [= <- _]. simpl. rewrite Ha. apply String.eqb_neq in Ha.
    split_and!; auto; try done.
Qed.

(** X20: When [process_announcements] completes, it returns one record per financial announcement of the batch, in batch order, with that announcement's symbol and subject. *)
Theorem process_announcements_financial_in_order (anns : list announcement) :
  forall (st : pstate) (l : list processed),
  fst (process_announcements f web now anns st) = Ok l ->
  map (fun p => (pd_symbol p, pd_subject p)) l =
  map (fun a => (get_or (SCRIP_CD a) "", get_or (NEWSSUB a) ""))
      (List.filter (fun a => is_financial_announcement (strip (get_or (CATEGORYNAME a) ""))
                                                      (lower (get_or (NEWSSUB a) ""))) anns).
Proof.
  induction anns as [|a rest IH]; intros st l H; simpl in H.
  - injection H as <-. reflexivity.
  - destruct (process_one f web now a st) as [[o|e] st1] eqn:E1; [|discriminate].
    destruct (process_announcements f web now rest st1) as [[l1|e] st2] eqn:E2; [|discriminate].
    simpl in H. injection H as <-.
    pose proof (IH st1 l1 ltac:(by rewrite E2)) as IH1.
    pose proof (process_one_ok _ _ _ _ E1) as Ho. simpl.
    destruct o as [p|].
    + destruct Ho as (-> & Hs & Hsub & _). simpl. rewrite Hs, Hsub, IH1. reflexivity.
    + rewrite Ho. exact IH1.
Qed.


Lemma process_announcements_state_gen (anns : list announcement) :
  forall st : pstate,
  dom (st_anns (snd (process_announcements f web now anns st))) = dom (st_anns st) /\
  objects (st_store st) ⊆ objects (st_store (snd (process_announcements f web now anns st))).
Proof.
  induction anns as [|a rest IH]; intros st; simpl; [done|].
  pose proof (process_one_state a st) as [D1 O1].
  destruct (process_one f web now a st) as [[o|e] st1]; simpl in *; [|done].
  pose proof (IH st1) as [D2 O2].
  destruct (process_announcements f web now rest st1) as [[l1|e] st2]; simpl in *;
    split; [congruence | set_solver | congruence | set_solver].
Qed.

(** X22: [process_announcements] never adds or removes keys of the announcement store and never removes objects from the bucket. *)
Theorem process_announcements_state (anns : list announcement) (st : pstate) :
  dom (st_anns (snd (process_announcements f web now anns st))) = dom (st_anns st) /\
  objects (st_store st) ⊆ objects (st_store (snd (process_announcements f web now anns st))).
Proof. exact (process_announcements_state_gen anns st). Qed.

(** X23: [process_announcements] on announcements without attachments touches neither the bucket nor the announcement store. *)
Theorem process_announcements_no_attachments (anns : list announcement) :
  Forall (fun a => get_or (ATTACHMENTNAME a) "" = "") anns ->
  forall st, snd (process_announcements f web now anns st) = st.
Proof.
  induction 1 as [|a rest Ha _ IH]; intros st; simpl; [done|].
  assert (E : snd (process_one f web now a st) = st).
  { unfold process_one. cbv zeta. rewrite Ha. simpl.
    destruct (is_financial_announcement _ _); [|done].
    destruct (parse_iso_datetime _ _); done. }
  destruct (process_one f web now a st) as [[o|e] st1]; simpl in E; subst st1; [|done].
  pose proof (IH st) as H.
  destruct (process_announcements f web now rest st) as [[l1|e] st2]; exact H.
Qed.

End S.
End T11.

Lemma process_announcements_no_attachments_witness :
  snd (Processor.process_announcements (fun _ => None) (Props.server 500) Props.sample_now
         [Props.financial_ann ""; Props.financial_ann ""] Props.empty_state) = Props.empty_state.
Proof.
  apply T11.process_announcements_no_attachments. repeat constructor.
Defined.

Lemma process_announcements_financial_in_order_witness :
  map (fun p => (Processor.pd_symbol p, Processor.pd_subject p))
    (match fst (Processor.process_announcements (fun _ => None) (Props.server 404) Props.sample_now
                  [Props.financial_ann ""; Props.other_ann] Props.empty_state) with
     | Ok l => l | Raise _ => [] end) =
  map (fun a => (Text.get_or (Db.SCRIP_CD a) "", Text.get_or (Db.NEWSSUB a) ""))
      (List.filter (fun a => Classifier.is_financial_announcement (Text.strip (Text.get_or (Db.CATEGORYNAME a) ""))
                                                      (Text.lower (Text.get_or (Db.NEWSSUB a) "")))
        [Props.financial_ann ""; Props.other_ann]).
Proof.
  apply (T11.process_announcements_financial_in_order (fun _ => None) (Props.server 404) Props.sample_now
           [Props.financial_ann ""; Props.other_ann] Props.empty_state).
  vm_compute. reflexivity.
Defined.

Module T12.
Import Text DateTime Classifier Db Processor Pipeline.

(** X24: [_determine_confidence] returns HIGH or MEDIUM only for announcements that [_is_financial_announcement] accepts. *)
Theorem confidence_implies_financial (category subject : string) :
  determine_confidence category subject <> "LOW" -> is_financial_announcement category subject = true.
Proof.
  unfold determine_confidence. destruct (String.eqb category "Result") eqn:E1.
  - apply String.eqb_eq in E1. subst. reflexivity.
  - destruct (String.eqb category "Board Meeting" && any_in board_keywords subject) eqn:E2; [|congruence].
    apply andb_true_iff in E2 as [E2 E3]. apply String.eqb_eq in E2. subst. intros _. exact E3.
Qed.

(** X25: [_prepare_announcement_data] on a category that is Result only after stripping, such as 'Result ': it stores category Result with confidence LOW, while the processor rates it HIGH. *)
Theorem padded_category_stored_low (f : string -> option datetime) (a : announcement) (p : ann_params)
    (c subject : string) :
  prepare_announcement_data f a = Ok (Some p) -> CATEGORYNAME a = Some c ->
  strip c = "Result" -> c <> "Result" ->
  category (p_row p) = "Result" /\ confidence (p_row p) = "LOW" /\
  determine_confidence (strip c) subject = "HIGH".
Proof.
  intros H Hc Hs Hne. unfold prepare_announcement_data in H. rewrite Hc in H. simpl in H.
  destruct (_ || _); [discriminate|].
  destruct (parse_iso_datetime f _) as [fd|]; simpl in H; [|discriminate].
  injection H as <-. simpl. rewrite Hs. split; [reflexivity|]. split; [|reflexivity].
  rewrite (proj2 (String.eqb_neq c "Result") Hne).
  destruct (String.eqb c "Board Meeting") eqn:E; [|reflexivity].
  apply String.eqb_eq in E. subst c. discriminate.
Qed.

Lemma lstrip_chars_head (l : list ascii) :
  match lstrip_chars l with c :: _ => is_space c = false | [] => True end.
Proof.
  induction l as [|c t IH]; simpl; [exact I|].
  destruct (is_space c) eqn:E; [exact IH | exact E].
Qed.

Lemma lstrip_chars_fix (l : list ascii) :
  match l with c :: _ => is_space c = false | [] => True end -> lstrip_chars l = l.
Proof. destruct l as [|c t]; simpl; [reflexivity|]. intros ->. reflexivity. Qed.

Lemma lstrip_chars_snoc (l : list ascii) (c : ascii) :
  is_space c = false -> exists l', lstrip_chars (l ++ [c])%list = (l' ++ [c])%list.
Proof.
  intros Hc. induction l as [|d t IH]; simpl.
  - rewrite Hc. exists []. reflexivity.
  - destruct (is_space d); [exact IH | exists (d :: t); reflexivity].
Qed.

Lemma strip_idem (s : string) : strip (strip s) = strip s.
Proof.
  unfold strip, chars, of_chars. rewrite list_ascii_of_string_of_list_ascii.
  set (u := lstrip_chars (list_ascii_of_string s)).
  assert (Hu : match u with c :: _ => is_space c = false | [] => True end) by apply lstrip_chars_head.
  set (v := lstrip_chars (rev u)).
  assert (Hv : match rev v with c :: _ => is_space c = false | [] => True end).
  { unfold v. destruct u as [|c t]; [exact I|]. simpl in Hu. simpl rev.
    destruct (lstrip_chars_snoc (rev t) c Hu) as [l' ->].
    rewrite rev_app_distr. exact Hu. }
  rewrite (lstrip_chars_fix (rev v) Hv), rev_involutive.
  unfold v. rewrite (lstrip_chars_fix _ (lstrip_chars_head _)). reflexivity.
Qed.

Section Insert.
Variable f : string -> option datetime.

Lemma last_row_for_cons (a : announcement) (rest : list announcement) (k : key) (dflt : option ann_row) :
  last_row_for f (a :: rest) k dflt =
  last_row_for f rest k (match prepare_announcement_data f a with
                         | Ok (Some p) => if decide ((p_symbol p, p_filing_date p) = k) then Some (p_row p) else dflt
                         | _ => dflt end).
Proof. reflexivity. Qed.

Lemma announcements_loop_spec (batch : list announcement) :
  forall tbl tbl' m n, announcements_loop f batch tbl m = Ok (n, tbl') ->
  n = (m + List.length batch)%nat /\ Forall (Props.valid_announcement f) batch /\
  forall k, tbl' !! k = last_row_for f batch k (tbl !! k).
Proof.
  induction batch as [|a rest IH]; intros tbl tbl' m n H; simpl in H.
  - injection H as <- <-. split_and!; [simpl; lia | constructor | reflexivity].
  - destruct (prepare_announcement_data f a) as [d|e] eqn:Ep; simpl in H; [|discriminate].
    destruct d as [p|]; simpl in H; [|discriminate].
    destruct (IH _ _ _ _ H) as (Hn & Hv & Hk). split_and!.
    + simpl. lia.
    + constructor; [exists p; exact Ep | exact Hv].
    + intros k. rewrite Hk, last_row_for_cons, Ep, lookup_insert. reflexivity.
Qed.

Lemma insert_announcements_spec (batch : list announcement) (tbl tbl' : gmap key ann_row) (n : nat) :
  insert_announcements f batch tbl = (Ok n, tbl') ->
  n = List.length batch /\ Forall (Props.valid_announcement f) batch /\
  forall k, tbl' !! k = last_row_for f batch k (tbl !! k).
Proof.
  unfold insert_announcements. destruct batch as [|a rest].
  - intros [= <- <-]. split_and!; [reflexivity | constructor | reflexivity].
  - destruct (announcements_loop f (a :: rest) tbl 0) as [[m tbl1]|e] eqn:E; intros [= <- <-].
    exact (announcements_loop_spec _ _ _ _ _ E).
Qed.

(** X26: When [insert_announcements] succeeds, it returns the batch length. Every record was valid, and the row of each key is the one from the last record of the batch with that key. *)
Theorem insert_announcements_result (batch : list announcement) (tbl tbl' : gmap key ann_row) (n : nat) :
  insert_announcements f batch tbl = (Ok n, tbl') ->
  n = List.length batch /\ Forall (Props.valid_announcement f) batch /\
  forall k, tbl' !! k = last_row_for f batch k (tbl !! k).
Proof. exact (insert_announcements_spec batch tbl tbl' n). Qed.


Lemma last_row_for_keep (batch : list announcement) :
  forall k dflt, is_Some dflt -> is_Some (last_row_for f batch k dflt).
Proof.
  induction batch as [|b rest IH]; intros k dflt H; [exact H|].
  rewrite last_row_for_cons. apply IH. repeat case_match; eauto.
Qed.

Lemma last_row_for_in (batch : list announcement) (a : announcement) (p : ann_params) :
  In a batch -> prepare_announcement_data f a = Ok (Some p) ->
  forall dflt, is_Some (last_row_for f batch (p_symbol p, p_filing_date p) dflt).
Proof.
  induction batch as [|b rest IH]; intros Hin Hp dflt; [destruct Hin|].
  rewrite last_row_for_cons. destruct Hin as [->|Hin].
  - rewrite Hp, decide_True by reflexivity. apply last_row_for_keep. eauto.
  - exact (IH Hin Hp _).
Qed.

Lemma prepare_key (a : announcement) (p : ann_params) :
  prepare_announcement_data f a = Ok (Some p) ->
  p_symbol p = strip (get_or (SCRIP_CD a) "") /\
  parse_iso_datetime f (get_or (or_else (NEWS_DT a) (DT_TM a)) "") = Some (p_filing_date p).
Proof.
  unfold prepare_announcement_data. destruct (_ || _); [discriminate|].
  destruct (parse_iso_datetime f _) as [fd|] eqn:E; simpl; [|discriminate].
  intros [= <-]. simpl. auto.
Qed.

Lemma last_row_for_some (batch : list announcement) :
  forall k dflt r, last_row_for f batch k dflt = Some r ->
  dflt = Some r \/ exists a p, In a batch /\ prepare_announcement_data f a = Ok (Some p) /\
                               (p_symbol p, p_filing_date p) = k.
Proof.
  induction batch as [|b rest IH]; intros k dflt r H; [left; exact H|].
  rewrite last_row_for_cons in H. apply IH in H as [H | (a & p & Hin & Hp & Hk)].
  - destruct (prepare_announcement_data f b) as [[p|]|e] eqn:Ep; try (left; exact H).
    destruct (decide ((p_symbol p, p_filing_date p) = k)) as [Hk|]; [|left; exact H].
    right. exists b, p. split_and!; [left; reflexivity | exact Ep | exact Hk].
  - right. exists a, p. split_and!; [right; exact Hin | exact Hp | exact Hk].
Qed.

End Insert.

Section Pipe.
Variables (f : string -> option datetime) (fdmy : string -> option cal_date) (web : Storage.net)
          (now : datetime).

Lemma process_announcements_sources (batch : list announcement) :
  forall st l, fst (process_announcements f web now batch st) = Ok l ->
  Forall (fun pd => exists a, In a batch /\ pd_symbol pd = get_or (SCRIP_CD a) "" /\
                      parse_iso_datetime f (get_or (NEWS_DT a) "") = Some (pd_date pd)) l.
Proof.
  induction batch as [|a rest IH]; intros st l H; simpl in H.
  - injection H as <-. constructor.
  - destruct (process_one f web now a st) as [[o|e] st1] eqn:E1; [|discriminate].
    destruct (process_announcements f web now rest st1) as [[l1|e] st2] eqn:E2; [|discriminate].
    simpl in H. injection H as <-.
    assert (IH1 := IH st1 l1 ltac:(by rewrite E2)).
    assert (IH2 : Forall (fun pd => exists a0, In a0 (a :: rest) /\ pd_symbol pd = get_or (SCRIP_CD a0) "" /\
                      parse_iso_datetime f (get_or (NEWS_DT a0) "") = Some (pd_date pd)) l1).
    { eapply Forall_impl; [exact IH1|]. intros pd (a0 & Hin & Hs). exists a0. split; [right; exact Hin | exact Hs]. }
    pose proof (T11.process_one_ok _ _ _ _ _ _ _ E1) as Ho.
    destruct o as [p|]; [|exact IH2].
    destruct Ho as (_ & Hs & _ & _ & _ & Hd & _). constructor; [|exact IH2].
    exists a. split; [left; reflexivity | auto].
Qed.

Lemma snapshot_of_processed_has_parent (tbl : gmap key ann_row) (pd : processed) :
  is_Some (tbl !! (pd_symbol pd, pd_date pd)) <->
  Props.snapshot_has_parent f fdmy tbl (snapshot_of_processed pd) = true.
Proof.
  unfold Props.snapshot_has_parent, snapshot_of_processed, prepare_snapshot_data. simpl.
  unfold parent_exists. simpl. by rewrite bool_decide_eq_true.
Qed.

(** X27: Pipeline: after [insert_announcements] of a batch whose symbols carry no surrounding spaces and whose NEWS_DT are set, every record [process_announcements] made from that batch, handed to [insert_financial_snapshots], finds its announcement row. *)
Theorem pipeline_snapshots_find_parents (batch : list announcement) (st : pstate) (l : list processed)
    (tbl tbl1 : gmap key ann_row) (n : nat) :
  fst (process_announcements f web now batch st) = Ok l ->
  insert_announcements f batch tbl = (Ok n, tbl1) ->
  Forall (fun a => strip (get_or (SCRIP_CD a) "") = get_or (SCRIP_CD a) "" /\ truthy (NEWS_DT a) = true) batch ->
  Forall (fun pd => Props.snapshot_has_parent f fdmy tbl1 (snapshot_of_processed pd) = true) l.
Proof.
  intros Hp Hi Hb.
  destruct (insert_announcements_spec f _ _ _ _ Hi) as (_ & Hv & Hk).
  eapply Forall_impl; [exact (process_announcements_sources _ _ _ Hp)|].
  intros pd (a & Hin & Hs & Hd). apply snapshot_of_processed_has_parent.
  assert (Hin' : a ∈ batch) by (apply list_elem_of_In; exact Hin).
  destruct (proj1 (Forall_forall _ _) Hv a Hin') as [p Hpa].
  destruct (proj1 (Forall_forall _ _) Hb a Hin') as [Hstrip Htr].
  destruct (prepare_key f a p Hpa) as [Hsym Hfd].
  unfold or_else in Hfd. rewrite Htr in Hfd.
  replace (pd_symbol pd, pd_date pd) with (p_symbol p, p_filing_date p) by (f_equal; congruence).
  rewrite Hk. exact (last_row_for_in f _ a p Hin Hpa _).
Qed.

(** X28: Pipeline: the announcement table keeps only stripped symbols, since [_prepare_announcement_data] strips the symbol, while a processed record keeps the raw symbol of its announcement. So after [insert_announcements] of any batch into a table whose symbols are stripped, any processed record whose symbol has surrounding spaces finds no announcement row and [insert_financial_snapshots] skips it as an orphan. *)
Theorem pipeline_padded_symbol_orphan (batch : list announcement) (tbl tbl1 : gmap key ann_row) (n : nat)
    (pd : processed) :
  insert_announcements f batch tbl = (Ok n, tbl1) ->
  (forall k r, tbl !! k = Some r -> strip k.1 = k.1) ->
  strip (pd_symbol pd) <> pd_symbol pd ->
  Props.snapshot_has_parent f fdmy tbl1 (snapshot_of_processed pd) = false.
Proof.
  intros Hi Htbl Hpad.
  destruct (insert_announcements_spec f _ _ _ _ Hi) as (_ & _ & Hk).
  destruct (Props.snapshot_has_parent f fdmy tbl1 (snapshot_of_processed pd)) eqn:E; [|reflexivity].
  apply snapshot_of_processed_has_parent in E. rewrite Hk in E. destruct E as [r Er].
  apply last_row_for_some in Er as [Er | (a & p & _ & Hpa & Hkey)].
  - exfalso. apply Hpad. exact (Htbl _ _ Er).
  - exfalso. apply Hpad. destruct (prepare_key f a p Hpa) as [Hs _].
    injection Hkey as <- _. rewrite Hs. apply strip_idem.
Qed.

End Pipe.

End T12.

Lemma gca_non_dict_raises_witness :
  NseFetch.get_corporate_announcements false false (Some (Json.JArr [Json.JNull])) = Json.Raises Json.PyAttributeError.
Proof. apply T2.gca_non_dict_raises; [left; reflexivity | intros kv; discriminate]. Defined.

Lemma gca_failed_request_raises_witness :
  NseFetch.get_corporate_announcements false false (NseFetch.request_result (fun _ => NseRetry.JsonRaises) (fun _ => Json.JNull) 3)
  = Json.Raises Json.PyAttributeError.
Proof. apply T2.gca_failed_request_raises; [left; reflexivity | intros i _; discriminate]. Defined.

Lemma gca_data_without_len_witness :
  NseFetch.get_corporate_announcements false false (Some (Json.JObj [("data", Json.JNum 5)])) = Json.Raises Json.PyTypeError.
Proof. apply (T2.gca_data_without_len false false [("data", Json.JNum 5)] (Json.JNum 5)); [left | |]; reflexivity. Defined.

Lemma gca_returns_witness :
  Json.JArr [] = Json.JArr [] \/ exists kv, Some (Json.JObj [("data", Json.JArr [])]) = Some (Json.JObj kv) /\
     Json.dict_get "data" kv = Some (Json.JArr []) /\ Json.len (Json.JArr []) <> None.
Proof. apply (T2.gca_returns false false (Some (Json.JObj [("data", Json.JArr [])]))). reflexivity. Defined.

Lemma extract_quarter_range_witness :
  In "Q2" ["Q1"; "Q2"; "Q3"; "Q4"].
Proof. apply (T9.extract_quarter_range "Q2 results"). vm_compute. reflexivity. Defined.

Lemma extract_financial_year_digits_witness :
  List.length (Text.chars "2025") = 4%nat /\ Forall (fun c => Re.is_digit c = true) (Text.chars "2025").
Proof. apply (T9.extract_financial_year_digits "fy 2025"). vm_compute. reflexivity. Defined.

Lemma extract_period_shape_witness :
  (exists dd mm yyyy, Text.chars "30.06.2025" = (dd ++ "."%char :: mm ++ "."%char :: yyyy)%list /\
     List.length dd = 2%nat /\ List.length mm = 2%nat /\ List.length yyyy = 4%nat /\
     Forall (fun c => Re.is_digit c = true) (dd ++ mm ++ yyyy)%list) \/
  (List.length (Text.chars "30.06.2025") = 4%nat /\ Forall (fun c => Re.is_digit c = true) (Text.chars "30.06.2025")).
Proof. apply (T9.extract_period_shape "quarter ended 30.06.2025"). vm_compute. reflexivity. Defined.

Lemma confidence_implies_financial_witness :
  Classifier.is_financial_announcement "Result" "" = true.
Proof. apply (T12.confidence_implies_financial "Result" ""). vm_compute. discriminate. Defined.

Lemma padded_category_stored_low_witness :
  exists p, Db.prepare_announcement_data (fun _ => None)
      (Db.mk_ann (Some "500325") (Some "2025-06-30T18:35:12") None (Some "N1") (Some "Result ")
                 None (Some "Outcome of board meeting") None None None None) = Ok (Some p) /\
    Db.category (Db.p_row p) = "Result" /\ Db.confidence (Db.p_row p) = "LOW" /\
    Classifier.determine_confidence (Text.strip "Result ") "Outcome of board meeting" = "HIGH".
Proof.
  eexists. split; [vm_compute; reflexivity|].
  apply (T12.padded_category_stored_low (fun _ => None)
    (Db.mk_ann (Some "500325") (Some "2025-06-30T18:35:12") None (Some "N1") (Some "Result ")
               None (Some "Outcome of board meeting") None None None None) _ "Result ").
  - vm_compute. reflexivity.
  - reflexivity.
  - vm_compute. reflexivity.
  - discriminate.
Defined.

Lemma insert_announcements_result_witness :
  2%nat = List.length [Props.financial_ann ""; Props.other_ann] /\
  Forall (Props.valid_announcement (fun _ => None)) [Props.financial_ann ""; Props.other_ann] /\
  forall k, snd (Db.insert_announcements (fun _ => None) [Props.financial_ann ""; Props.other_ann] ∅) !! k =
            Pipeline.last_row_for (fun _ => None) [Props.financial_ann ""; Props.other_ann] k ((∅ : gmap Db.key Db.ann_row) !! k).
Proof.
  apply (T12.insert_announcements_result (fun _ => None) [Props.financial_ann ""; Props.other_ann] ∅ _ 2).
  assert (Hf : fst (Db.insert_announcements (fun _ => None) [Props.financial_ann ""; Props.other_ann] ∅) = Ok 2%nat)
    by (vm_compute; reflexivity).
  rewrite <- Hf. apply surjective_pairing.
Defined.

Lemma pipeline_snapshots_find_parents_witness :
  Forall (fun pd => Props.snapshot_has_parent (fun _ => None) (fun _ => None)
            (snd (Db.insert_announcements (fun _ => None) [Props.financial_ann "a.pdf"; Props.other_ann] ∅))
            (Pipeline.snapshot_of_processed pd) = true)
    (match fst (Processor.process_announcements (fun _ => None) (Props.server 404) Props.sample_now
                  [Props.financial_ann "a.pdf"; Props.other_ann] Props.empty_state) with
     | Ok l => l | Raise _ => [] end).
Proof.
  apply (T12.pipeline_snapshots_find_parents (fun _ => None) (fun _ => None) (Props.server 404) Props.sample_now
           [Props.financial_ann "a.pdf"; Props.other_ann] Props.empty_state _ ∅ _ 2).
  - vm_compute. reflexivity.
  - assert (Hf : fst (Db.insert_announcements (fun _ => None) [Props.financial_ann "a.pdf"; Props.other_ann] ∅) = Ok 2%nat)
      by (vm_compute; reflexivity).
    rewrite <- Hf. apply surjective_pairing.
  - repeat constructor.
Defined.

Lemma pipeline_padded_symbol_orphan_witness :
  match fst (Processor.process_announcements (fun _ => None) (Props.server 404) Props.sample_now
               [(Db.mk_ann (Some " 500325") (Some "2025-06-30T18:35:12") None (Some "N1") (Some "Result")
                      None (Some "Financial results") None None None None); (Db.mk_ann (Some "500180") (Some "2025-06-30T19:02:45") None (Some "N2") (Some "Result")
                      None (Some "Financial results") None None None None)] Props.empty_state) with
  | Ok (pd :: _) =>
      Props.snapshot_has_parent (fun _ => None) (fun _ => None)
        (snd (Db.insert_announcements (fun _ => None) [(Db.mk_ann (Some " 500325") (Some "2025-06-30T18:35:12") None (Some "N1") (Some "Result")
                      None (Some "Financial results") None None None None); (Db.mk_ann (Some "500180") (Some "2025-06-30T19:02:45") None (Some "N2") (Some "Result")
                      None (Some "Financial results") None None None None)] ∅))
        (Pipeline.snapshot_of_processed pd) = false
  | _ => False
  end.
Proof.
  destruct (fst (Processor.process_announcements (fun _ => None) (Props.server 404) Props.sample_now
               [(Db.mk_ann (Some " 500325") (Some "2025-06-30T18:35:12") None (Some "N1") (Some "Result")
                      None (Some "Financial results") None None None None); (Db.mk_ann (Some "500180") (Some "2025-06-30T19:02:45") None (Some "N2") (Some "Result")
                      None (Some "Financial results") None None None None)] Props.empty_state)) as [[|pd rest]|e] eqn:E;
    vm_compute in E; try discriminate.
  injection E as <- <-.
  apply (T12.pipeline_padded_symbol_orphan (fun _ => None) (fun _ => None)
           [(Db.mk_ann (Some " 500325") (Some "2025-06-30T18:35:12") None (Some "N1") (Some "Result")
                      None (Some "Financial results") None None None None); (Db.mk_ann (Some "500180") (Some "2025-06-30T19:02:45") None (Some "N2") (Some "Result")
                      None (Some "Financial results") None None None None)] ∅ _ 2).
  - assert (Hf : fst (Db.insert_announcements (fun _ => None) [(Db.mk_ann (Some " 500325") (Some "2025-06-30T18:35:12") None (Some "N1") (Some "Result")
                      None (Some "Financial results") None None None None); (Db.mk_ann (Some "500180") (Some "2025-06-30T19:02:45") None (Some "N2") (Some "Result")
                      None (Some "Financial results") None None None None)] ∅) = Ok 2%nat)
      by (vm_compute; reflexivity).
    rewrite <- Hf. apply surjective_pairing.
  - intros k r H. rewrite lookup_empty in H. discriminate.
  - vm_compute. discriminate.
Defined.

End Extras.
